(** * go-enet-sharp: the cgo binding layer, embedded and verified

    The repository wraps a native reliable-UDP library behind the Go
    interfaces [Host], [Peer] and [Address].  The Go code is marshalling:
    it converts Go values to the native layout, owns a few native buffers
    and turns native return values into Go errors.

    The embedding follows the Go sources function by function.  Native
    memory is an explicit store ([CMem]); every call into C is recorded in
    a trace; a Go panic and C undefined behaviour are outcomes of their
    own ([Outcome]).  The native library itself is a parameter ([ENet]). *)

From Stdlib Require Import ZArith List Lia Bool.
From Stdlib Require Import Strings.String Strings.Byte.
From stdpp Require Import base option gmap.

Local Open Scope Z_scope.

(** ** Go and cgo runtime *)

Module Go.

(** [math.MaxUint32]. *)
Definition MaxUint32 : Z := 4294967295.

(** A Go [[]byte]: [None] is the nil slice, [Some l] a slice with contents [l]
    (the empty non-nil slice is [Some []]). *)
Definition bytes : Type := option (list byte).

(** [len(s)]; the length of a nil slice is 0. *)
Definition len (s : bytes) : Z :=
  match s with
  | None => 0
  | Some l => Z.of_nat (length l)
  end.

(** [byte(v)]: conversion of an integer to [uint8] keeps the low 8 bits. *)
Definition byte_of_Z (v : Z) : byte :=
  match Byte.of_N (Z.to_N (v mod 256)) with
  | Some b => b
  | None => x00
  end.

Definition Z_of_byte (b : byte) : Z := Z.of_N (Byte.to_N b).

(** Conversions between integer types wrap. *)
Definition uint8 (v : Z) : Z := v mod 2 ^ 8.
Definition uint16 (v : Z) : Z := v mod 2 ^ 16.
Definition uint32 (v : Z) : Z := v mod 2 ^ 32.
Definition uint64 (v : Z) : Z := v mod 2 ^ 64.
Definition int32 (v : Z) : Z := (v + 2 ^ 31) mod 2 ^ 32 - 2 ^ 31.

(** [binary.LittleEndian.PutUint32(b, v)] writes the first four bytes of [b];
    the library indexes [b[3]] first and panics on a shorter slice. *)
Definition PutUint32 (b : list byte) (v : Z) : option (list byte) :=
  match b with
  | _ :: _ :: _ :: _ :: rest =>
      Some (byte_of_Z v
              :: byte_of_Z (Z.shiftr v 8)
              :: byte_of_Z (Z.shiftr v 16)
              :: byte_of_Z (Z.shiftr v 24) :: rest)
  | _ => None
  end.

(** [binary.LittleEndian.Uint32(b)]. *)
Definition Uint32 (b : list byte) : option Z :=
  match b with
  | b0 :: b1 :: b2 :: b3 :: _ =>
      Some (Z.lor (Z_of_byte b0)
             (Z.lor (Z.shiftl (Z_of_byte b1) 8)
               (Z.lor (Z.shiftl (Z_of_byte b2) 16)
                      (Z.shiftl (Z_of_byte b3) 24))))
  | _ => None
  end.

(** [make([]byte, n)]: [n] zero bytes. *)
Definition make (n : Z) : list byte := repeat x00 (Z.to_nat n).

(** [copy(dst[off:], src)] copies [min(len(dst) - off, len(src))] bytes. *)
Definition copy_at (off : nat) (dst src : list byte) : list byte :=
  let n := Nat.min (length dst - off) (length src) in
  take off dst ++ take n src ++ drop (off + n) dst.

(** [[]byte(str)]: the bytes of a string, never nil. *)
Definition bytes_of_string (s : string) : bytes := Some (list_byte_of_string s).

(** A value of a Go interface type with one implementation [T] in the
    package: nil, that implementation, or an implementation from elsewhere
    (on which a type assertion [v.(T)] panics). *)
Inductive iface (T : Type) : Type :=
| inil
| impl (x : T)
| foreign.
Arguments inil {T}.
Arguments impl {T} x.
Arguments foreign {T}.

(** Go's [error]: nil or a message. *)
Definition error : Type := option string.

End Go.

(** ** Native memory and the native library *)

(** A non-null native pointer; [ptr] adds NULL ([None]). *)
Definition addr : Type := positive.
Definition ptr : Type := option addr.

(** Modelled from the spec: the native [ENetAddress] struct of enet.h, which
    the sources include but do not contain ("host + port identifying an
    endpoint").  The Go code reads and writes only [port]. *)
Record ENetAddress : Type := mkENetAddress {
  host : list byte;
  port : Z
}.

(** The fields of the native [ENetPeer] that the Go code touches. *)
Record ENetPeer : Type := mkENetPeer {
  address : ENetAddress;
  ENetPeer_data : ptr
}.

(** The fields of the native [ENetHost] that the Go code touches. *)
Record ENetHost : Type := mkENetHost {
  totalSentData : Z;
  totalSentPackets : Z;
  totalReceivedData : Z;
  totalReceivedPackets : Z
}.

(** Modelled from the spec: the native event type enumeration of enet.h
    ("Event ∈ {None, Connect, Disconnect, Receive}"); the zero value of the
    C enum is the none sentinel. *)
Inductive ENetEventType : Type :=
| ENET_EVENT_TYPE_NONE
| ENET_EVENT_TYPE_CONNECT
| ENET_EVENT_TYPE_DISCONNECT
| ENET_EVENT_TYPE_RECEIVE.

(** Modelled from the spec: the native [ENetEvent] struct of enet.h (an
    event carries "the associated Peer, channel index, and (for Receive) a
    Packet", a disconnect carries [data]). *)
Record ENetEvent : Type := mkENetEvent {
  ev_type : ENetEventType;
  ev_peer : ptr;
  ev_channelID : Z;
  ev_data : Z;
  ev_packet : ptr
}.

Section Native.

(** Whatever else the native library keeps (sockets, queues, clocks). *)
Context {NativeState : Type}.

(** Native memory: blocks obtained from [malloc], the peer and host
    structs the library handed out, and the library's own state. *)
Record CMem : Type := mkCMem {
  heap : gmap addr (list byte);
  peers : gmap addr ENetPeer;
  hosts : gmap addr ENetHost;
  native : NativeState
}.

(** One call from Go into C. *)
Inductive Call : Type :=
| call_free (a : addr)
| call_CBytes (b : list byte) (a : addr)
| call_CString (s : string) (a : addr)
| call_enet_address_set_hostname (name : string) (ret : Z)
| call_enet_host_create (bind : option ENetAddress) (ret : ptr)
| call_enet_host_connect (h : ptr) (a : ENetAddress) (ret : ptr)
| call_enet_host_service (h : ptr) (timeout : Z) (ret : Z)
| call_enet_host_broadcast (h : ptr) (channel : Z) (packet : ptr)
| call_enet_peer_send (p : ptr) (channel : Z) (packet : ptr) (ret : Z).

(** The state a Go call runs in: native memory and the calls made so far,
    oldest first. *)
Record World : Type := mkWorld {
  mem : CMem;
  trace : list Call
}.

(** How a Go call ends: it returns, it panics (the world is kept, a caller
    may recover), or it runs into C undefined behaviour. *)
Inductive Outcome (A : Type) : Type :=
| Ok (a : A) (w : World)
| Panic (msg : string) (w : World)
| Undefined.
Arguments Ok {A} a w.
Arguments Panic {A} msg w.
Arguments Undefined {A}.

Definition M (A : Type) : Type := World -> Outcome A.

#[export] Instance M_ret : MRet M := fun A a w => Ok a w.

#[export] Instance M_bind : MBind M := fun A B f m w =>
  match m w with
  | Ok a w' => f a w'
  | Panic msg w' => Panic msg w'
  | Undefined => Undefined
  end.

Definition panic {A : Type} (msg : string) : M A := fun w => Panic msg w.
Definition undefined {A : Type} : M A := fun _ => Undefined.
Definition get_mem : M CMem := fun w => Ok (mem w) w.
Definition put_mem (m : CMem) : M unit := fun w => Ok tt (mkWorld m (trace w)).
Definition log (c : Call) : M unit := fun w => Ok tt (mkWorld (mem w) (trace w ++ [c])).

Definition nil_dereference : string :=
  "runtime error: invalid memory address or nil pointer dereference".
Definition index_out_of_range : string := "runtime error: index out of range".
Definition gobytes_out_of_range : string :=
  "runtime error: gobytes: length out of range".

(** ** libc and cgo helpers *)

(** [C.free(p)] for a non-null [p]: releasing a block that [malloc] did not
    hand out, or that was released before, is undefined. *)
Definition free (a : addr) : M unit :=
  m ← get_mem;
  match heap m !! a with
  | None => undefined
  | Some _ =>
      put_mem (mkCMem (delete a (heap m)) (peers m) (hosts m) (native m));;
      log (call_free a)
  end.

(** [C.CBytes(b)]: a new [malloc] block holding a copy of [b]. *)
Definition CBytes (b : list byte) : M ptr :=
  m ← get_mem;
  let a := fresh (dom (heap m)) in
  put_mem (mkCMem (<[a := b]> (heap m)) (peers m) (hosts m) (native m));;
  log (call_CBytes b a);;
  mret (Some a).

(** Reading one byte at [unsafe.Add(p, off)]; outside the block the read is
    undefined. *)
Definition load_byte (a : addr) (off : nat) : M byte :=
  m ← get_mem;
  match heap m !! a with
  | None => undefined
  | Some blk =>
      match blk !! off with
      | None => undefined
      | Some b => mret b
      end
  end.

(** [C.GoBytes(unsafe.Add(p, off), n)], the runtime's [gobytes]: an empty
    slice for [n = 0], a panic for a negative [n], else a copy of [n] bytes. *)
Definition GoBytes (a : addr) (off : nat) (n : Z) : M Go.bytes :=
  if n =? 0 then mret (Some [])
  else if n <? 0 then panic gobytes_out_of_range
  else
    m ← get_mem;
    match heap m !! a with
    | None => undefined
    | Some blk =>
        if Z.of_nat off + n <=? Z.of_nat (length blk)
        then mret (Some (take (Z.to_nat n) (drop off blk)))
        else undefined
    end.

(** ** The native library

    enet.h is not among the sources: the library is a parameter.  Each field
    is one C function the Go code calls; it sees native memory and returns
    its result with the memory it leaves.  Structs that Go passes by pointer
    ([ENetAddress], [ENetEvent]) go in and come back as values. *)
Record ENet : Type := mkENet {
  enet_address_set_hostname :
    ENetAddress -> list byte -> CMem -> Z * ENetAddress * CMem;
  enet_host_create :
    option ENetAddress -> Z -> Z -> Z -> Z -> Z -> CMem -> ptr * CMem;
  enet_host_connect :
    ptr -> ENetAddress -> Z -> Z -> CMem -> ptr * CMem;
  enet_host_service :
    ptr -> ENetEvent -> Z -> CMem -> Z * ENetEvent * CMem;
  enet_host_broadcast :
    ptr -> Z -> ptr -> CMem -> CMem;
  enet_peer_send :
    ptr -> Z -> ptr -> CMem -> Z * CMem
}.

Variable lib : ENet.

(** Running a C function on the current native memory. *)
Definition ccall {A : Type} (f : CMem -> A * CMem) : M A := fun w =>
  let (a, m) := f (mem w) in Ok a (mkWorld m (trace w)).

(** ** Go types of the package *)

Record enetAddress : Type := mkAddress { cAddr : ENetAddress }.
Record enetHost : Type := mkHost { cHost : ptr }.
Record enetPeer : Type := mkPeer { cPeer : ptr }.
Record enetPacket : Type := mkPacket { cPacket : ptr }.
Record enetEvent : Type := mkEvent { cEvent : ENetEvent }.

(** The interfaces.  [Address] and [Host] are implemented by pointers to
    the structs; the struct is passed along by value here, no statement below
    observes two handles on one struct. *)
Definition Address : Type := Go.iface enetAddress.
Definition Host : Type := Go.iface enetHost.
Definition Peer : Type := Go.iface enetPeer.
Definition Packet : Type := Go.iface enetPacket.
Definition Event : Type := Go.iface enetEvent.

(** [PacketFlags] is declared in packet.go, which is not among the sources;
    the calls below only pass it on. *)
Definition PacketFlags : Type := Z.

(** [NewPacket] is defined in packet.go, which is not among the sources: it
    is a parameter.  It returns a packet and an error and may change native
    memory (it creates the native packet). *)
Variable NewPacket : Go.bytes -> PacketFlags -> CMem -> Packet * Go.error * CMem.

(** A type assertion [v.(T)] without the comma-ok form. *)
Definition assert_impl {T : Type} (v : Go.iface T) : M T :=
  match v with
  | Go.impl x => mret x
  | Go.inil => panic "interface conversion: interface is nil"
  | Go.foreign => panic "interface conversion: unexpected dynamic type"
  end.

(** The zero value of [C.ENetAddress] and of [C.ENetEvent]. *)
Definition zero_ENetAddress : ENetAddress := mkENetAddress (Go.make 16) 0.
Definition zero_ENetEvent : ENetEvent :=
  mkENetEvent ENET_EVENT_TYPE_NONE None 0 0 None.

(** ** address.go *)

(** The bytes of a C string: up to the first NUL. *)
Fixpoint c_string (l : list byte) : list byte :=
  match l with
  | [] => []
  | b :: l' => if Byte.eqb b x00 then [] else b :: c_string l'
  end.

(** [C.CString(s)]: a new [malloc] block with the bytes of [s] and a NUL. *)
Definition CString (s : string) : M addr :=
  m ← get_mem;
  let b := list_byte_of_string s ++ [x00] in
  let a := fresh (dom (heap m)) in
  put_mem (mkCMem (<[a := b]> (heap m)) (peers m) (hosts m) (native m));;
  log (call_CString s a);;
  mret a.

Definition SetHost (addr : enetAddress) (hostname : string) : M enetAddress :=
  cHostname ← CString hostname;
  '(r, a) ← ccall (enet_address_set_hostname lib (cAddr addr)
                     (c_string (list_byte_of_string hostname)));
  log (call_enet_address_set_hostname hostname r);;
  free cHostname;;
  mret (mkAddress a).

Definition SetHostAny (addr : enetAddress) : M enetAddress :=
  SetHost addr "::".

(** [SetPort] and [GetPort] touch the Go struct only: they are functions of
    the struct. *)
Definition SetPort (addr : enetAddress) (port : Z) : enetAddress :=
  mkAddress (mkENetAddress (host (cAddr addr)) (Go.uint16 port)).

Definition GetPort (addr : enetAddress) : Z :=
  Go.uint16 (port (cAddr addr)).

Definition NewAddress (ip : string) (port : Z) : M Address :=
  let ret := mkAddress zero_ENetAddress in
  ret ← SetHost ret ip;
  let ret := SetPort ret port in
  mret (Go.impl ret).

Definition NewListenAddress (port : Z) : M Address :=
  let ret := mkAddress zero_ENetAddress in
  ret ← SetHostAny ret;
  let ret := SetPort ret port in
  mret (Go.impl ret).

(** ** host.go *)

(** Reading and writing the native host struct behind [host.cHost]. *)
Definition read_host (p : ptr) : M ENetHost :=
  match p with
  | None => panic nil_dereference
  | Some a =>
      m ← get_mem;
      match hosts m !! a with
      | None => undefined
      | Some h => mret h
      end
  end.

Definition write_host (p : ptr) (h : ENetHost) : M unit :=
  match p with
  | None => panic nil_dereference
  | Some a =>
      m ← get_mem;
      put_mem (mkCMem (heap m) (peers m) (<[a := h]> (hosts m)) (native m))
  end.

Definition Service (host : enetHost) (timeout : Z) : M Event :=
  let ret := mkEvent zero_ENetEvent in
  '(r, ev) ← ccall (enet_host_service lib (cHost host) (cEvent ret)
                      (Go.uint32 timeout));
  log (call_enet_host_service (cHost host) (Go.uint32 timeout) r);;
  mret (Go.impl (mkEvent ev)).

Definition Connect (host : enetHost) (addr : Address) (channelCount data : Z)
  : M (Peer * Go.error) :=
  a ← assert_impl addr;
  peer ← ccall (enet_host_connect lib (cHost host) (cAddr a)
                  (Go.uint64 channelCount) (Go.uint32 data));
  log (call_enet_host_connect (cHost host) (cAddr a) peer);;
  match peer with
  | None => mret (Go.inil, Some "couldn't connect to foreign peer"%string)
  | Some _ => mret (Go.impl (mkPeer peer), None)
  end.

Definition NewHost (addr : Address)
    (peerCount channelLimit incomingBandwidth outgoingBandwidth bufferLimit : Z)
  : M (Host * Go.error) :=
  cAddr_ ← match addr with
          | Go.inil => mret None
          | _ => a ← assert_impl addr; mret (Some (cAddr a))
          end;
  host ← ccall (enet_host_create lib cAddr_
                  (Go.uint64 peerCount) (Go.uint64 channelLimit)
                  (Go.uint32 incomingBandwidth) (Go.uint32 outgoingBandwidth)
                  (Go.int32 bufferLimit));
  log (call_enet_host_create cAddr_ host);;
  match host with
  | None => mret (Go.inil, Some "unable to create host"%string)
  | Some _ => mret (Go.impl (mkHost host), None)
  end.

Definition BroadcastPacket (host : enetHost) (packet : Packet) (channel : Z)
  : M Go.error :=
  pkt ← assert_impl packet;
  ccall (fun m => (tt, enet_host_broadcast lib (cHost host) (Go.uint8 channel)
                         (cPacket pkt) m));;
  log (call_enet_host_broadcast (cHost host) (Go.uint8 channel) (cPacket pkt));;
  mret None.

Definition BroadcastBytes (host : enetHost) (data : Go.bytes) (channel : Z)
    (flags : PacketFlags) : M Go.error :=
  '(packet, err) ← ccall (NewPacket data flags);
  match err with
  | Some _ => mret err
  | None => BroadcastPacket host packet channel
  end.

Definition BroadcastString (host : enetHost) (str : string) (channel : Z)
    (flags : PacketFlags) : M Go.error :=
  '(packet, err) ← ccall (NewPacket (Go.bytes_of_string str) flags);
  match err with
  | Some _ => mret err
  | None => BroadcastPacket host packet channel
  end.

Definition ResetBytesSent (host : enetHost) : M unit :=
  h ← read_host (cHost host);
  write_host (cHost host)
    (mkENetHost 0 (totalSentPackets h) (totalReceivedData h) (totalReceivedPackets h)).

Definition ResetBytesReceived (host : enetHost) : M unit :=
  h ← read_host (cHost host);
  write_host (cHost host)
    (mkENetHost (totalSentData h) (totalSentPackets h) 0 (totalReceivedPackets h)).

Definition ResetPacketsSent (host : enetHost) : M unit :=
  h ← read_host (cHost host);
  write_host (cHost host)
    (mkENetHost (totalSentData h) 0 (totalReceivedData h) (totalReceivedPackets h)).

Definition ResetPacketsReceived (host : enetHost) : M unit :=
  h ← read_host (cHost host);
  write_host (cHost host)
    (mkENetHost (totalSentData h) (totalSentPackets h) (totalReceivedData h) 0).

(** ** peer.go *)

(** Reading and writing the native peer struct behind [peer.cPeer]. *)
Definition read_peer (p : ptr) : M ENetPeer :=
  match p with
  | None => panic nil_dereference
  | Some a =>
      m ← get_mem;
      match peers m !! a with
      | None => undefined
      | Some s => mret s
      end
  end.

Definition write_peer (p : ptr) (s : ENetPeer) : M unit :=
  match p with
  | None => panic nil_dereference
  | Some a =>
      m ← get_mem;
      put_mem (mkCMem (heap m) (<[a := s]> (peers m)) (hosts m) (native m))
  end.

Definition GetAddress (peer : enetPeer) : M Address :=
  s ← read_peer (cPeer peer);
  mret (Go.impl (mkAddress (address s))).

Definition SendPacket (peer : enetPeer) (packet : Packet) (channel : Z)
  : M Go.error :=
  pkt ← assert_impl packet;
  r ← ccall (enet_peer_send lib (cPeer peer) (Go.uint8 channel) (cPacket pkt));
  log (call_enet_peer_send (cPeer peer) (Go.uint8 channel) (cPacket pkt) r);;
  mret None.

Definition SendBytes (peer : enetPeer) (data : Go.bytes) (channel : Z)
    (flags : PacketFlags) : M Go.error :=
  '(packet, err) ← ccall (NewPacket data flags);
  match err with
  | Some _ => mret err
  | None => SendPacket peer packet channel
  end.

Definition SendString (peer : enetPeer) (str : string) (channel : Z)
    (flags : PacketFlags) : M Go.error :=
  '(packet, err) ← ccall (NewPacket (Go.bytes_of_string str) flags);
  match err with
  | Some _ => mret err
  | None => SendPacket peer packet channel
  end.

Definition SetData_too_long : string :=
  "maximum peer data length is uint32 (4294967295)".

Definition SetData (peer : enetPeer) (data : Go.bytes) : M unit :=
  if Go.MaxUint32 <? Go.len data then panic SetData_too_long
  else
    s ← read_peer (cPeer peer);
    (* Free any data that was previously stored against this peer. *)
    let existing := ENetPeer_data s in
    match existing with
    | Some a => free a
    | None => mret tt
    end;;
    match data with
    | None =>
        (* If nil, set this explicitly. *)
        s ← read_peer (cPeer peer);
        write_peer (cPeer peer) (mkENetPeer (address s) None)
    | Some l =>
        (* First 4 bytes stores how many bytes we have. *)
        let b := Go.make (Go.len data + 4) in
        match Go.PutUint32 b (Go.uint32 (Go.len data)) with
        | None => panic index_out_of_range
        | Some b =>
            (* Join this header + data in to a contiguous slice *)
            let b := Go.copy_at 4 b l in
            (* And write it out to C memory, storing our pointer. *)
            p ← CBytes b;
            s ← read_peer (cPeer peer);
            write_peer (cPeer peer) (mkENetPeer (address s) p)
        end
    end.

Definition GetData (peer : enetPeer) : M Go.bytes :=
  s ← read_peer (cPeer peer);
  match ENetPeer_data s with
  | None => mret None
  | Some a =>
      (* First 4 bytes are the bytes length. *)
      b0 ← load_byte a 0;
      b1 ← load_byte a 1;
      b2 ← load_byte a 2;
      b3 ← load_byte a 3;
      match Go.Uint32 [b0; b1; b2; b3] with
      | None => panic index_out_of_range
      | Some n => GoBytes a 4 (Go.int32 n)
      end
  end.

End Native.

Arguments CMem : clear implicits.
Arguments World : clear implicits.
Arguments Outcome : clear implicits.
Arguments M : clear implicits.
Arguments ENet : clear implicits.
Arguments Ok {NativeState A} a w.
Arguments Panic {NativeState A} msg w.
Arguments Undefined {NativeState A}.

(** ** The packet codec of the specification

    The repository has no codec of its own: protocol messages are encoded
    and decoded inside the native library, which is not among the sources.
    This module follows section 4.1 of the specification. *)

Module Codec.

(** Modelled from the spec: the typed protocol message, one constructor per
    message kind of section 4.1 with the fields listed there; [Disconnect]
    carries the [data] of section 4.3 ("send Disconnect{data}"). *)
Inductive Message : Type :=
| Connect
| ConnectAck
| Disconnect (data : Z)
| DisconnectAck
| Ping
| ReliableData (channel sequence : Z) (payload : list byte)
| UnreliableData (channel sequence : Z) (payload : list byte)
| Unsequenced (channel : Z) (payload : list byte)
| FragmentedData (channel sequence fragmentIndex fragmentCount totalLength : Z)
    (payload : list byte)
| Acknowledge (referencedSequence receivedSentTime : Z).

Inductive Kind : Type :=
| KConnect | KConnectAck | KDisconnect | KDisconnectAck | KPing
| KReliableData | KUnreliableData | KUnsequenced | KFragmentedData
| KAcknowledge.

Definition kinds : list Kind :=
  [KConnect; KConnectAck; KDisconnect; KDisconnectAck; KPing;
   KReliableData; KUnreliableData; KUnsequenced; KFragmentedData;
   KAcknowledge].

Definition kind_of (m : Message) : Kind :=
  match m with
  | Connect => KConnect
  | ConnectAck => KConnectAck
  | Disconnect _ => KDisconnect
  | DisconnectAck => KDisconnectAck
  | Ping => KPing
  | ReliableData _ _ _ => KReliableData
  | UnreliableData _ _ _ => KUnreliableData
  | Unsequenced _ _ => KUnsequenced
  | FragmentedData _ _ _ _ _ _ => KFragmentedData
  | Acknowledge _ _ => KAcknowledge
  end.

(** Modelled from the spec: the "fixed layout".  The specification fixes
    neither the tag values nor the field widths, so they are parameters:
    a one-byte tag per kind and a width in bytes per field. *)
Record Layout : Type := mkLayout {
  tag : Kind -> byte;
  w_channel : nat;
  w_sequence : nat;
  w_fragmentIndex : nat;
  w_fragmentCount : nat;
  w_totalLength : nat;
  w_time : nat;
  w_data : nat;
  w_payloadLength : nat
}.

(** A field of [w] bytes, least significant byte first. *)
Fixpoint put (w : nat) (v : Z) : list byte :=
  match w with
  | O => []
  | S w' => Go.byte_of_Z v :: put w' (Z.shiftr v 8)
  end.

Fixpoint get (w : nat) (b : list byte) : option (Z * list byte) :=
  match w with
  | O => Some (0, b)
  | S w' =>
      match b with
      | [] => None
      | x :: b' =>
          '(v, rest) ← get w' b';
          Some (Go.Z_of_byte x + 256 * v, rest)
      end
  end.

(** The payload goes last, after its declared length. *)
Definition put_payload (L : Layout) (p : list byte) : list byte :=
  put (w_payloadLength L) (Z.of_nat (length p)) ++ p.

(** Fails "when the declared payload length exceeds the remaining buffer". *)
Definition get_payload (L : Layout) (b : list byte) : option (list byte) :=
  '(n, rest) ← get (w_payloadLength L) b;
  if n <=? Z.of_nat (length rest) then Some (take (Z.to_nat n) rest) else None.

(** Modelled from the spec: "type tag, then kind-specific fields, then
    payload bytes". *)
Definition Encode (L : Layout) (m : Message) : list byte :=
  tag L (kind_of m) ::
  match m with
  | Connect | ConnectAck | DisconnectAck | Ping => []
  | Disconnect d => put (w_data L) d
  | ReliableData c s p =>
      put (w_channel L) c ++ put (w_sequence L) s ++ put_payload L p
  | UnreliableData c s p =>
      put (w_channel L) c ++ put (w_sequence L) s ++ put_payload L p
  | Unsequenced c p =>
      put (w_channel L) c ++ put_payload L p
  | FragmentedData c s i n t p =>
      put (w_channel L) c ++ put (w_sequence L) s ++
      put (w_fragmentIndex L) i ++ put (w_fragmentCount L) n ++
      put (w_totalLength L) t ++ put_payload L p
  | Acknowledge s t => put (w_sequence L) s ++ put (w_time L) t
  end.

(** The kind a tag byte stands for; [None] for "an unknown type tag". *)
Definition kind_of_tag (L : Layout) (t : byte) : option Kind :=
  find (fun k => Byte.eqb (tag L k) t) kinds.

Definition decode_body (L : Layout) (k : Kind) (b : list byte) : option Message :=
  match k with
  | KConnect => Some Connect
  | KConnectAck => Some ConnectAck
  | KDisconnectAck => Some DisconnectAck
  | KPing => Some Ping
  | KDisconnect =>
      '(d, _) ← get (w_data L) b; Some (Disconnect d)
  | KReliableData =>
      '(c, b) ← get (w_channel L) b;
      '(s, b) ← get (w_sequence L) b;
      p ← get_payload L b;
      Some (ReliableData c s p)
  | KUnreliableData =>
      '(c, b) ← get (w_channel L) b;
      '(s, b) ← get (w_sequence L) b;
      p ← get_payload L b;
      Some (UnreliableData c s p)
  | KUnsequenced =>
      '(c, b) ← get (w_channel L) b;
      p ← get_payload L b;
      Some (Unsequenced c p)
  | KFragmentedData =>
      '(c, b) ← get (w_channel L) b;
      '(s, b) ← get (w_sequence L) b;
      '(i, b) ← get (w_fragmentIndex L) b;
      '(n, b) ← get (w_fragmentCount L) b;
      '(t, b) ← get (w_totalLength L) b;
      p ← get_payload L b;
      Some (FragmentedData c s i n t p)
  | KAcknowledge =>
      '(s, b) ← get (w_sequence L) b;
      '(t, _) ← get (w_time L) b;
      Some (Acknowledge s t)
  end.

Inductive Result : Type :=
| Decoded (m : Message)
| MalformedMessage.

(** Modelled from the spec: decoding reads the tag, then the fields of that
    kind, then the payload; it "fails with MalformedMessage" on an unknown
    tag, on a buffer too short for the fields, and on a declared payload
    length beyond the buffer. *)
Definition Decode (L : Layout) (b : list byte) : Result :=
  match b with
  | [] => MalformedMessage
  | t :: b' =>
      match kind_of_tag L t with
      | None => MalformedMessage
      | Some k =>
          match decode_body L k b' with
          | Some m => Decoded m
          | None => MalformedMessage
          end
      end
  end.

(** The values a field of [w] bytes can hold. *)
Definition fits (w : nat) (v : Z) : Prop := 0 <= v < 256 ^ Z.of_nat w.

(** A typed message: every field fits its width, the payload length fits
    the length field. *)
Definition well_typed (L : Layout) (m : Message) : Prop :=
  match m with
  | Connect | ConnectAck | DisconnectAck | Ping => True
  | Disconnect d => fits (w_data L) d
  | ReliableData c s p | UnreliableData c s p =>
      fits (w_channel L) c /\ fits (w_sequence L) s /\
      fits (w_payloadLength L) (Z.of_nat (length p))
  | Unsequenced c p =>
      fits (w_channel L) c /\ fits (w_payloadLength L) (Z.of_nat (length p))
  | FragmentedData c s i n t p =>
      fits (w_channel L) c /\ fits (w_sequence L) s /\
      fits (w_fragmentIndex L) i /\ fits (w_fragmentCount L) n /\
      fits (w_totalLength L) t /\
      fits (w_payloadLength L) (Z.of_nat (length p))
  | Acknowledge s t => fits (w_sequence L) s /\ fits (w_time L) t
  end.

(** No two kinds share a tag. *)
Definition distinct_tags (L : Layout) : Prop :=
  forall k1 k2, tag L k1 = tag L k2 -> k1 = k2.

(** A layout with the tags 1 to 10 in the order of section 4.1, one byte for
    a channel, two for a sequence number, four for the other fields. *)
Definition example_layout : Layout :=
  mkLayout
    (fun k =>
       match k with
       | KConnect => x01 | KConnectAck => x02 | KDisconnect => x03
       | KDisconnectAck => x04 | KPing => x05 | KReliableData => x06
       | KUnreliableData => x07 | KUnsequenced => x08
       | KFragmentedData => x09 | KAcknowledge => x0a
       end)
    1 2 4 4 4 4 4 4.

End Codec.

(** ** Vocabulary of the statements *)

Section Vocabulary.

Context {NativeState : Type}.

(** The native peer struct behind a Go peer. *)
Definition peer_struct (w : World NativeState) (peer : enetPeer) : option ENetPeer :=
  a ← cPeer peer; peers (mem w) !! a.

(** The data slot of a peer, NULL also when the peer is not live. *)
Definition slot (w : World NativeState) (peer : enetPeer) : ptr :=
  s ← peer_struct w peer; ENetPeer_data s.

(** The peer is live and its data slot is NULL or a block that [malloc]
    handed out and nobody released: what [SetData] leaves behind. *)
Definition slot_owned (w : World NativeState) (peer : enetPeer) : Prop :=
  is_Some (peer_struct w peer) /\
  forall a, slot w peer = Some a -> is_Some (heap (mem w) !! a).

(** The four length bytes [SetData] puts in front of the data. *)
Definition length_header (l : list byte) : list byte :=
  let v := Go.uint32 (Z.of_nat (length l)) in
  [Go.byte_of_Z v; Go.byte_of_Z (Z.shiftr v 8);
   Go.byte_of_Z (Z.shiftr v 16); Go.byte_of_Z (Z.shiftr v 24)].

(** The heap once the block behind [old] is released. *)
Definition released (old : ptr) (h : gmap addr (list byte)) : gmap addr (list byte) :=
  match old with
  | Some a => delete a h
  | None => h
  end.

(** The world [SetData] leaves on a live peer [a] whose slot held [old]. *)
Definition after_SetData (w : World NativeState) (a : addr) (s : ENetPeer)
    (data : Go.bytes) : World NativeState :=
  let old := ENetPeer_data s in
  let h := released old (heap (mem w)) in
  let frees := match old with Some o => [call_free o] | None => [] end in
  match data with
  | None =>
      mkWorld (mkCMem h (<[a := mkENetPeer (address s) None]> (peers (mem w)))
                 (hosts (mem w)) (native (mem w)))
              (trace w ++ frees)
  | Some l =>
      let q := fresh (dom h) in
      let b := length_header l ++ l in
      mkWorld (mkCMem (<[q := b]> h)
                 (<[a := mkENetPeer (address s) (Some q)]> (peers (mem w)))
                 (hosts (mem w)) (native (mem w)))
              (trace w ++ frees ++ [call_CBytes b q])
  end.

(** The Go interface value of an optional address of the package. *)
Definition bind_address (bind : option enetAddress) : Address :=
  match bind with
  | None => Go.inil
  | Some a => Go.impl a
  end.

(** The world after a host struct is overwritten. *)
Definition with_host (w : World NativeState) (a : addr) (h : ENetHost)
  : World NativeState :=
  mkWorld (mkCMem (heap (mem w)) (peers (mem w)) (<[a := h]> (hosts (mem w)))
             (native (mem w)))
          (trace w).

(** The specification's reading of a convenience wrapper: construct the packet; if
    that fails, return the error and send nothing; else hand the packet to
    the packet primitive [send]. *)
Definition wrapper_spec
    (NewPacket : Go.bytes -> PacketFlags -> CMem NativeState
                 -> Packet * Go.error * CMem NativeState)
    (send : Packet -> Z -> M NativeState Go.error)
    (data : Go.bytes) (channel : Z) (flags : PacketFlags)
  : M NativeState Go.error := fun w =>
  let '(packet, err, m) := NewPacket data flags (mem w) in
  match err with
  | Some e => Ok (Some e) (mkWorld m (trace w))
  | None => send packet channel (mkWorld m (trace w))
  end.

End Vocabulary.

(** ** A small world for the examples *)

(** One live peer with an empty data slot, one host with counters set. *)
Definition example_peer : enetPeer := mkPeer (Some 1%positive).
Definition example_host : enetHost := mkHost (Some 1%positive).
Definition example_world : World unit :=
  mkWorld
    (mkCMem ∅
       {[ 1%positive := mkENetPeer zero_ENetAddress None ]}
       {[ 1%positive := mkENetHost 10 20 30 40 ]}
       tt)
    [].

(** A toy native library: it resolves no name, creates a host for at most
    4095 peers, connects to nobody, has nothing to report, and fails every
    send with -1. *)
Definition example_lib : ENet unit :=
  mkENet
    (fun a _ m => (-1, a, m))
    (fun _ peerCount _ _ _ _ m =>
       if peerCount <=? 4095 then
         let h := fresh (dom (hosts m)) in
         (Some h, mkCMem (heap m) (peers m)
                    (<[h := mkENetHost 0 0 0 0]> (hosts m)) (native m))
       else (None, m))
    (fun _ _ _ _ m => (None, m))
    (fun _ ev _ m => (0, ev, m))
    (fun _ _ _ m => m)
    (fun _ _ _ m => (-1, m)).

(** A toy [NewPacket]: it fails on nil data. *)
Definition example_NewPacket (data : Go.bytes) (flags : PacketFlags)
    (m : CMem unit) : Packet * Go.error * CMem unit :=
  match data with
  | None => (Go.inil, Some "unable to create packet"%string, m)
  | Some _ => (Go.impl (mkPacket (Some 7%positive)), None, m)
  end.

Definition example_packet : Packet := Go.impl (mkPacket (Some 7%positive)).

(** ** More of host.go *)

Section NativeMore.

Context {NativeState : Type} (lib : ENet NativeState).

(** [ServiceV2] fills the event of the caller; the event pointer is nil
    ([None]) or points to a struct, which comes back as the native call left
    it, with the status the native call returned. *)
Definition ServiceV2 (host : enetHost) (event : option enetEvent) (timeout : Z)
  : M NativeState (enetEvent * Z) :=
  match event with
  | None => panic nil_dereference
  | Some e =>
      '(ret, ev) ← ccall (enet_host_service lib (cHost host) (cEvent e)
                            (Go.uint32 timeout));
      log (call_enet_host_service (cHost host) (Go.uint32 timeout) ret);;
      mret (mkEvent ev, ret)
  end.

(** The four counters of a host and their reset operations. *)
Inductive Counter : Type :=
| BytesSent
| BytesReceived
| PacketsSent
| PacketsReceived.

Definition Reset (c : Counter) (host : enetHost) : M NativeState unit :=
  match c with
  | BytesSent => ResetBytesSent host
  | BytesReceived => ResetBytesReceived host
  | PacketsSent => ResetPacketsSent host
  | PacketsReceived => ResetPacketsReceived host
  end.

(** A sequence of resets, first to last. *)
Fixpoint Resets (cs : list Counter) (host : enetHost) : M NativeState unit :=
  match cs with
  | [] => mret tt
  | c :: cs' => Reset c host;; Resets cs' host
  end.

End NativeMore.

(** ** Vocabulary of the further statements *)

Definition counter (c : Counter) (h : ENetHost) : Z :=
  match c with
  | BytesSent => totalSentData h
  | BytesReceived => totalReceivedData h
  | PacketsSent => totalSentPackets h
  | PacketsReceived => totalReceivedPackets h
  end.

Definition Counter_eqb (c1 c2 : Counter) : bool :=
  match c1, c2 with
  | BytesSent, BytesSent | BytesReceived, BytesReceived
  | PacketsSent, PacketsSent | PacketsReceived, PacketsReceived => true
  | _, _ => false
  end.

Section MoreVocabulary.

Context {NativeState : Type}.

(** What a caller sees of an outcome: the value returned or the panic
    message; nothing for undefined behaviour. *)
Definition outcome_value {A : Type} (o : Outcome NativeState A) : option (string + A) :=
  match o with
  | Ok a _ => Some (inr a)
  | Panic msg _ => Some (inl msg)
  | Undefined => None
  end.

(** What [GetData] makes of the block behind a slot: the bytes the header
    announces, a panic for a header of 2^31 or more, nothing when the block
    is shorter than four bytes or than the header says. *)
Definition read_block (blk : list byte) : option (string + Go.bytes) :=
  match blk with
  | b0 :: b1 :: b2 :: b3 :: rest =>
      match Go.Uint32 [b0; b1; b2; b3] with
      | Some v =>
          let n := Go.int32 v in
          if n =? 0 then Some (inr (Some []))
          else if n <? 0 then Some (inl gobytes_out_of_range)
          else if 4 + n <=? Z.of_nat (length blk)
               then Some (inr (Some (take (Z.to_nat n) rest)))
               else None
      | None => None
      end
  | _ => None
  end.

(** Every data slot is NULL or an allocated block, and no two peers share a
    block. *)
Definition slots_sound (w : World NativeState) : Prop :=
  (forall a s q, peers (mem w) !! a = Some s -> ENetPeer_data s = Some q ->
                 is_Some (heap (mem w) !! q)) /\
  (forall a b sa sb q,
     peers (mem w) !! a = Some sa -> peers (mem w) !! b = Some sb ->
     ENetPeer_data sa = Some q -> ENetPeer_data sb = Some q -> a = b).

(** Behind every slot that is not NULL there is a block as [SetData] writes
    it: a length header and as many bytes of data. *)
Definition slots_hold_data (w : World NativeState) : Prop :=
  forall a s q, peers (mem w) !! a = Some s -> ENetPeer_data s = Some q ->
    exists l : list byte,
      heap (mem w) !! q = Some (length_header l ++ l) /\
      Z.of_nat (length l) <= Go.MaxUint32.

(** The native library leaves [malloc] blocks alone when it resolves a
    host name. *)
Definition set_hostname_keeps_heap (lib : ENet NativeState) : Prop :=
  forall a name m,
    heap (snd (enet_address_set_hostname lib a name m)) = heap m.

End MoreVocabulary.

(** The convention of [enet_host_service] (enet.h is not among the sources):
    a positive status when the call wrote an event, zero when the timeout
    elapsed with nothing to report, a negative status on failure.  Without
    an event to report the call leaves the type of the struct as it got it,
    or sets it to none. *)
Definition reports_by_status {NativeState : Type} (lib : ENet NativeState) : Prop :=
  forall (h : ptr) (e : ENetEvent) (timeout : Z) (m : CMem NativeState),
    let '(status, written, _) := enet_host_service lib h e timeout m in
    (status <= 0 ->
       ev_type written = ev_type e \/ ev_type written = ENET_EVENT_TYPE_NONE) /\
    (0 < status -> ev_type written <> ENET_EVENT_TYPE_NONE).

(** Two more toy libraries: one whose service call fails with -1 and leaves
    the event alone, one whose service call reports that peer 1 connected. *)
Definition failing_lib : ENet unit :=
  mkENet
    (enet_address_set_hostname example_lib)
    (enet_host_create example_lib)
    (enet_host_connect example_lib)
    (fun _ ev _ m => (-1, ev, m))
    (enet_host_broadcast example_lib)
    (enet_peer_send example_lib).

Definition connecting_lib : ENet unit :=
  mkENet
    (enet_address_set_hostname example_lib)
    (enet_host_create example_lib)
    (enet_host_connect example_lib)
    (fun _ _ _ m =>
       (1, mkENetEvent ENET_EVENT_TYPE_CONNECT (Some 1%positive) 0 0 None, m))
    (enet_host_broadcast example_lib)
    (enet_peer_send example_lib).

Definition example_peer2 : enetPeer := mkPeer (Some 2%positive).

(** A second live peer, for the examples with two peers. *)
Definition example_world2 : World unit :=
  mkWorld
    (mkCMem {[ 5%positive := [x01; x00; x00; x00; x2a] ]}
       {[ 1%positive := mkENetPeer zero_ENetAddress None;
          2%positive := mkENetPeer zero_ENetAddress (Some 5%positive) ]}
       {[ 1%positive := mkENetHost 10 20 30 40 ]}
       tt)
    [].

(** ** Go runtime facts *)

Lemma Z_of_byte_of_Z (v : Z) : Go.Z_of_byte (Go.byte_of_Z v) = v mod 256.
Proof.
  unfold Go.Z_of_byte, Go.byte_of_Z.
  assert (Hr : 0 <= v mod 256 < 256) by (apply Z.mod_pos_bound; lia).
  destruct (Byte.of_N (Z.to_N (v mod 256))) as [b|] eqn:E.
  - apply Byte.to_of_N in E. rewrite E. lia.
  - apply Byte.of_N_None_iff in E. lia.
Qed.

Lemma Z_of_byte_range (b : byte) : 0 <= Go.Z_of_byte b < 256.
Proof.
  unfold Go.Z_of_byte. pose proof (Byte.to_N_bounded b). lia.
Qed.

Lemma byte_of_Z_of_byte (b : byte) : Go.byte_of_Z (Go.Z_of_byte b) = b.
Proof.
  unfold Go.byte_of_Z. pose proof (Z_of_byte_range b) as Hr.
  rewrite Z.mod_small by lia. unfold Go.Z_of_byte.
  rewrite N2Z.id, Byte.of_to_N. reflexivity.
Qed.

(** Four little-endian bytes read back as the 32-bit value they were
    written from. *)
Lemma Uint32_bytes (v : Z) :
  0 <= v < 2 ^ 32 ->
  Go.Uint32 [Go.byte_of_Z v; Go.byte_of_Z (Z.shiftr v 8);
             Go.byte_of_Z (Z.shiftr v 16); Go.byte_of_Z (Z.shiftr v 24)]
  = Some v.
Proof.
  intros Hv. unfold Go.Uint32. f_equal.
  rewrite !Z_of_byte_of_Z.
  change 256 with (2 ^ 8).
  rewrite <- !Z.land_ones by lia.
  apply Z.bits_inj'. intros n Hn.
  rewrite !Z.lor_spec, !Z.land_spec.
  rewrite !Z.shiftl_spec by lia.
  destruct (Z.ltb_spec n 8); [|destruct (Z.ltb_spec n 16);
    [|destruct (Z.ltb_spec n 24); [|destruct (Z.ltb_spec n 32)]]].
  - rewrite (Z.testbit_neg_r _ (n - 8)), (Z.testbit_neg_r _ (n - 16)),
      (Z.testbit_neg_r _ (n - 24)) by lia.
    rewrite Z.ones_spec_low by lia. rewrite !orb_false_r. apply andb_true_r.
  - rewrite (Z.testbit_neg_r _ (n - 16)), (Z.testbit_neg_r _ (n - 24)) by lia.
    rewrite Z.land_spec, Z.shiftr_spec by lia.
    rewrite (Z.ones_spec_high 8 n), (Z.ones_spec_low 8 (n - 8)) by lia.
    replace (n - 8 + 8) with n by lia.
    rewrite andb_false_r, !orb_false_r, andb_true_r. reflexivity.
  - rewrite (Z.testbit_neg_r _ (n - 24)) by lia.
    rewrite !Z.land_spec, !Z.shiftr_spec by lia.
    rewrite (Z.ones_spec_high 8 n), (Z.ones_spec_high 8 (n - 8)),
      (Z.ones_spec_low 8 (n - 16)) by lia.
    replace (n - 16 + 16) with n by lia.
    rewrite !andb_false_r, !orb_false_r, andb_true_r. reflexivity.
  - rewrite !Z.land_spec, !Z.shiftr_spec by lia.
    rewrite (Z.ones_spec_high 8 n), (Z.ones_spec_high 8 (n - 8)),
      (Z.ones_spec_high 8 (n - 16)), (Z.ones_spec_low 8 (n - 24)) by lia.
    replace (n - 24 + 24) with n by lia.
    rewrite !andb_false_r, andb_true_r. reflexivity.
  - rewrite !Z.land_spec, !Z.shiftr_spec by lia.
    rewrite (Z.ones_spec_high 8 n), (Z.ones_spec_high 8 (n - 8)),
      (Z.ones_spec_high 8 (n - 16)), (Z.ones_spec_high 8 (n - 24)) by lia.
    rewrite !andb_false_r. simpl.
    symmetry. apply (Z.bits_above_log2 v n); [lia|].
    destruct (Z.eq_dec v 0) as [->|Hz]; [simpl; lia|].
    apply Z.log2_lt_pow2; [lia|].
    apply Z.lt_le_trans with (2 ^ 32); [lia|].
    apply Z.pow_le_mono_r; lia.
Qed.

Lemma make_plus_4 (n : nat) :
  Go.make (Z.of_nat n + 4) = x00 :: x00 :: x00 :: x00 :: repeat x00 n.
Proof.
  unfold Go.make.
  replace (Z.to_nat (Z.of_nat n + 4)) with (4 + n)%nat by lia.
  reflexivity.
Qed.

Lemma copy_at_4 (h0 h1 h2 h3 : byte) (l : list byte) :
  Go.copy_at 4 (h0 :: h1 :: h2 :: h3 :: repeat x00 (length l)) l
  = h0 :: h1 :: h2 :: h3 :: l.
Proof.
  unfold Go.copy_at.
  cbn [length Nat.sub take drop Nat.add].
  rewrite repeat_length, Nat.sub_0_r, Nat.min_id.
  rewrite (take_ge l) by lia.
  rewrite drop_ge by (rewrite repeat_length; lia).
  cbn [take app]. now rewrite app_nil_r.
Qed.

(** The buffer [SetData] hands to [C.CBytes]: the length header, then the
    data. *)
Lemma SetData_buffer (l : list byte) :
  match Go.PutUint32 (Go.make (Go.len (Some l) + 4)) (Go.uint32 (Go.len (Some l))) with
  | Some b => Go.copy_at 4 b l = length_header l ++ l
  | None => False
  end.
Proof.
  cbn [Go.len]. rewrite make_plus_4. cbn [Go.PutUint32].
  rewrite copy_at_4. reflexivity.
Qed.

(** Unfolding the monad one layer. *)
Ltac run_step :=
  unfold mbind, mret, M_bind, M_ret, get_mem, put_mem, log, panic, undefined,
    ccall; cbn beta iota.

(** ** The data slot of a peer *)

Section PeerData.

Context {NativeState : Type}.
Implicit Types (w : World NativeState) (s : ENetPeer) (a : addr).

Lemma free_owned w a :
  is_Some (heap (mem w) !! a) ->
  free a w = Ok tt (mkWorld (mkCMem (delete a (heap (mem w))) (peers (mem w))
                               (hosts (mem w)) (native (mem w)))
                            (trace w ++ [call_free a])).
Proof.
  intros [blk Hb]. unfold free. run_step. rewrite Hb. reflexivity.
Qed.

Lemma SetData_returns w a s (d : Go.bytes) :
  peers (mem w) !! a = Some s ->
  (forall o, ENetPeer_data s = Some o -> is_Some (heap (mem w) !! o)) ->
  Go.len d <= Go.MaxUint32 ->
  SetData (mkPeer (Some a)) d w = Ok tt (after_SetData w a s d).
Proof.
  intros Hs Hown Hlen. unfold SetData.
  destruct (Z.ltb_spec Go.MaxUint32 (Go.len d)) as [?|_]; [lia|].
  unfold read_peer, write_peer, after_SetData. cbn [cPeer]. run_step.
  rewrite Hs.
  destruct (ENetPeer_data s) as [o|] eqn:Ho.
  - rewrite (free_owned w o) by (apply Hown; reflexivity).
    destruct d as [l|]; cbn [mem peers heap trace released].
    + pose proof (SetData_buffer l) as Hb.
      destruct (Go.PutUint32 _ _) as [b|]; [|contradiction].
      rewrite Hb. unfold CBytes. run_step. cbn [mem peers heap hosts native trace].
      rewrite Hs. rewrite <- app_assoc. reflexivity.
    + rewrite Hs. reflexivity.
  - destruct d as [l|]; cbn [mem peers heap trace released].
    + pose proof (SetData_buffer l) as Hb.
      destruct (Go.PutUint32 _ _) as [b|]; [|contradiction].
      rewrite Hb. unfold CBytes. run_step. cbn [mem peers heap hosts native trace].
      rewrite Hs. reflexivity.
    + rewrite Hs. rewrite app_nil_r. destruct w as [[? ? ? ?] ?]. reflexivity.
Qed.

Lemma int32_small (n : Z) : 0 <= n < 2 ^ 31 -> Go.int32 n = n.
Proof. intros H. unfold Go.int32. rewrite Z.mod_small; lia. Qed.

Lemma int32_large (n : Z) : 2 ^ 31 <= n < 2 ^ 32 -> Go.int32 n = n - 2 ^ 32.
Proof.
  intros H. unfold Go.int32.
  replace (n + 2 ^ 31) with (n - 2 ^ 31 + 1 * 2 ^ 32) by lia.
  rewrite Z.mod_add by lia. rewrite Z.mod_small; lia.
Qed.

(** [GetData] on a slot that holds a header and [l]: the data below 2^31
    bytes, a panic of the runtime from there on. *)
Lemma GetData_block w a s q (l : list byte) :
  peers (mem w) !! a = Some s ->
  ENetPeer_data s = Some q ->
  heap (mem w) !! q = Some (length_header l ++ l) ->
  Z.of_nat (length l) <= Go.MaxUint32 ->
  GetData (mkPeer (Some a)) w =
    if Z.of_nat (length l) <? 2 ^ 31 then Ok (Some l) w
    else Panic gobytes_out_of_range w.
Proof.
  intros Hs Hq Hb Hlen. unfold Go.MaxUint32 in Hlen.
  unfold GetData, read_peer, load_byte. cbn [cPeer]. run_step.
  rewrite Hs, Hq.
  repeat (rewrite Hb; cbn [length_header app lookup list_lookup]).
  assert (Hu : Go.uint32 (Z.of_nat (length l)) = Z.of_nat (length l))
    by (unfold Go.uint32; apply Z.mod_small; lia).
  rewrite Uint32_bytes by (rewrite Hu; lia). rewrite Hu.
  unfold GoBytes.
  destruct (Z.ltb_spec (Z.of_nat (length l)) (2 ^ 31)) as [Hsmall|Hlarge].
  - rewrite int32_small by lia.
    destruct (Z.eqb_spec (Z.of_nat (length l)) 0) as [H0|H0].
    + destruct l; [reflexivity|discriminate].
    + destruct (Z.ltb_spec (Z.of_nat (length l)) 0) as [?|_]; [lia|].
      run_step. rewrite Hb.
      cbn [length_header app length drop].
      destruct (Z.leb_spec (Z.of_nat 4 + Z.of_nat (length l))
                  (Z.of_nat (S (S (S (S (length l))))))) as [_|?]; [|lia].
      rewrite drop_0, Nat2Z.id, take_ge by lia. reflexivity.
  - rewrite int32_large by lia.
    destruct (Z.eqb_spec (Z.of_nat (length l) - 2 ^ 32) 0) as [?|_]; [lia|].
    destruct (Z.ltb_spec (Z.of_nat (length l) - 2 ^ 32) 0) as [_|?]; [|lia].
    reflexivity.
Qed.

(** What [SetData] stores is what [GetData] finds: the peer's slot points to
    a block with the header and the data. *)
Lemma after_SetData_slot w a s (l : list byte) :
  let w' := after_SetData w a s (Some l) in
  exists q, peers (mem w') !! a = Some (mkENetPeer (address s) (Some q)) /\
            heap (mem w') !! q = Some (length_header l ++ l).
Proof.
  cbn. eexists. split; apply lookup_insert_eq.
Qed.

Lemma after_SetData_nil w a s :
  peers (mem (after_SetData w a s None)) !! a = Some (mkENetPeer (address s) None).
Proof. cbn. apply lookup_insert_eq. Qed.

(** [SetData] followed by [GetData] on the same peer. *)
Lemma SetData_GetData w a s (d : Go.bytes) :
  peers (mem w) !! a = Some s ->
  (forall o, ENetPeer_data s = Some o -> is_Some (heap (mem w) !! o)) ->
  Go.len d <= Go.MaxUint32 ->
  (SetData (mkPeer (Some a)) d;; GetData (mkPeer (Some a))) w =
    if Go.len d <? 2 ^ 31 then Ok d (after_SetData w a s d)
    else Panic gobytes_out_of_range (after_SetData w a s d).
Proof.
  intros Hs Hown Hlen.
  unfold mbind at 1. unfold M_bind. rewrite (SetData_returns w a s d) by assumption.
  destruct d as [l|].
  - destruct (after_SetData_slot w a s l) as (q & Hp & Hh).
    apply (GetData_block _ a _ q l Hp eq_refl Hh Hlen).
  - cbn [Go.len]. destruct (Z.ltb_spec 0 (2 ^ 31)) as [_|?]; [|lia].
    unfold GetData, read_peer. cbn [cPeer]. run_step.
    rewrite after_SetData_nil. reflexivity.
Qed.

End PeerData.

Section PeerDataClaims.

Context {NativeState : Type}.
Implicit Types (w : World NativeState) (s : ENetPeer) (a : addr).

(** A peer with an owned slot is a live native peer. *)
Lemma slot_owned_inv w (peer : enetPeer) :
  slot_owned w peer ->
  exists a s, peer = mkPeer (Some a) /\ peers (mem w) !! a = Some s /\
              slot w peer = ENetPeer_data s /\
              (forall o, ENetPeer_data s = Some o -> is_Some (heap (mem w) !! o)).
Proof.
  intros [[s Hs] Hown]. destruct peer as [[a|]]; [|discriminate].
  exists a, s. unfold slot, peer_struct in *. cbn in *.
  rewrite Hs in *. cbn in *. auto.
Qed.

Lemma after_SetData_owned w a s (d : Go.bytes) :
  slot_owned (after_SetData w a s d) (mkPeer (Some a)) /\
  (slot (after_SetData w a s d) (mkPeer (Some a)) = None <-> d = None).
Proof.
  unfold slot_owned, slot, peer_struct. cbn [cPeer mbind option_bind].
  destruct d as [l|]; cbn [after_SetData mem peers heap];
    rewrite lookup_insert_eq; cbn.
  - split; [split; [eauto|]|split; discriminate].
    intros o [= <-]. rewrite lookup_insert_eq. eauto.
  - split; [split; [eauto|discriminate]|tauto].
Qed.

(** [GetData] returns nil only from an empty slot. *)
Lemma GetData_nil_iff w (peer : enetPeer) :
  is_Some (peer_struct w peer) ->
  (exists w', GetData peer w = Ok None w') <-> slot w peer = None.
Proof.
  intros [s Hs]. destruct peer as [[a|]]; [|discriminate].
  unfold slot, peer_struct in *. cbn [cPeer mbind option_bind] in *.
  rewrite Hs. cbn [mbind option_bind].
  unfold GetData, read_peer. cbn [cPeer]. run_step. rewrite Hs.
  destruct (ENetPeer_data s) as [q|]; [|split; eauto].
  split; [|discriminate]. intros [w' H]. exfalso.
  unfold load_byte, GoBytes in H.
  unfold mbind, mret, M_bind, M_ret, get_mem, panic, undefined in H.
  cbn beta iota in H.
  repeat (match type of H with
          | context [match ?x with _ => _ end] => destruct x; try discriminate
          | context [if ?x then _ else _] => destruct x; try discriminate
          end).
Qed.

End PeerDataClaims.

Section PeerDataTheorems.

Context {NativeState : Type}.
Implicit Types (w : World NativeState) (peer : enetPeer) (d : Go.bytes).

(** C9: [SetData] panics exactly on a slice longer than 2^32 - 1 bytes, and
    then leaves the world as it was; on every shorter slice it returns. *)
Theorem C9_SetData_panics_iff_too_long w peer d :
  slot_owned w peer ->
  (Go.MaxUint32 < Go.len d <-> SetData peer d w = Panic SetData_too_long w) /\
  (Go.len d <= Go.MaxUint32 <-> exists w', SetData peer d w = Ok tt w') /\
  ((exists msg w', SetData peer d w = Panic msg w') -> Go.MaxUint32 < Go.len d).
Proof.
  intros Hown.
  destruct (slot_owned_inv w peer Hown) as (a & s & -> & Hs & _ & Hfree).
  destruct (Z.lt_ge_cases Go.MaxUint32 (Go.len d)) as [Hlong|Hshort].
  - assert (Hp : SetData (mkPeer (Some a)) d w = Panic SetData_too_long w).
    { unfold SetData.
      destruct (Z.ltb_spec Go.MaxUint32 (Go.len d)); [reflexivity|lia]. }
    rewrite Hp. repeat split; try tauto; try lia.
    intros [w' Hw']. discriminate.
  - rewrite (SetData_returns w a s d Hs Hfree Hshort).
    repeat split; try lia; try discriminate; eauto.
    intros (msg & w' & H). discriminate.
Qed.

(** C10: [SetData(nil)] releases the stored block and clears the slot;
    [GetData] returns nil exactly when the slot is empty, which after a
    [SetData] is exactly when that call passed nil; and every [SetData]
    calls [free] on the stored block before it installs a new one. *)
Theorem C10_SetData_frees_then_installs w peer d :
  slot_owned w peer ->
  Go.len d <= Go.MaxUint32 ->
  ((exists w', GetData peer w = Ok None w') <-> slot w peer = None) /\
  exists w',
    SetData peer d w = Ok tt w' /\
    slot_owned w' peer /\
    (d = None ->
       slot w' peer = None /\
       forall o, slot w peer = Some o -> heap (mem w') !! o = None) /\
    ((exists w'', GetData peer w' = Ok None w'') <-> d = None) /\
    trace w' =
      trace w
      ++ match slot w peer with Some o => [call_free o] | None => [] end
      ++ match d, slot w' peer with
         | Some l, Some q => [call_CBytes (length_header l ++ l) q]
         | _, _ => []
         end.
Proof.
  intros Hown Hlen. split; [apply GetData_nil_iff, Hown|].
  destruct (slot_owned_inv w peer Hown) as (a & s & -> & Hs & Hslot & Hfree).
  exists (after_SetData w a s d).
  destruct (after_SetData_owned w a s d) as [Hown' Hnil].
  split; [apply SetData_returns; assumption|].
  split; [assumption|].
  split; [|split].
  - intros ->. split; [apply Hnil; reflexivity|].
    intros o Ho. rewrite Hslot in Ho. cbn [after_SetData mem heap].
    rewrite Ho. apply lookup_delete_eq.
  - rewrite <- Hnil. apply GetData_nil_iff, Hown'.
  - rewrite Hslot. destruct d as [l|].
    + unfold slot, peer_struct. cbn [cPeer mbind option_bind after_SetData mem peers trace].
      rewrite lookup_insert_eq. cbn. reflexivity.
    + cbn [after_SetData trace]. rewrite app_nil_r. reflexivity.
Qed.

End PeerDataTheorems.

Lemma example_peer_owned : slot_owned example_world example_peer.
Proof.
  split.
  - exists (mkENetPeer zero_ENetAddress None). reflexivity.
  - intros a H. vm_compute in H. discriminate.
Defined.

Lemma C9_witness :
  slot_owned example_world example_peer /\
  (Go.len (Some [x01; x02; x03]) <= Go.MaxUint32 <->
   exists w', SetData example_peer (Some [x01; x02; x03]) example_world = Ok tt w').
Proof.
  split; [exact example_peer_owned|].
  apply (C9_SetData_panics_iff_too_long example_world example_peer
           (Some [x01; x02; x03]) example_peer_owned).
Defined.

Lemma example_peer2_owned : slot_owned example_world2 example_peer2.
Proof.
  split.
  - exists (mkENetPeer zero_ENetAddress (Some 5%positive)). reflexivity.
  - intros a H. vm_compute in H. injection H as <-. eexists. reflexivity.
Defined.

Lemma C10_witness :
  slot_owned example_world2 example_peer2 /\
  slot example_world2 example_peer2 = Some 5%positive /\
  (exists w',
     SetData example_peer2 None example_world2 = Ok tt w' /\
     slot w' example_peer2 = None /\
     heap (mem w') !! 5%positive = None /\
     trace w' = [call_free 5%positive] /\
     exists w'', GetData example_peer2 w' = Ok None w'') /\
  (exists w' q,
     SetData example_peer2 (Some [x68; x69]) example_world2 = Ok tt w' /\
     slot w' example_peer2 = Some q /\
     trace w' = [call_free 5%positive;
                 call_CBytes [x02; x00; x00; x00; x68; x69] q]).
Proof.
  split; [exact example_peer2_owned|]. split; [reflexivity|]. split.
  - destruct (C10_SetData_frees_then_installs example_world2 example_peer2
                None example_peer2_owned)
      as (_ & w' & Hset & _ & Hnil & Hget & Htrace).
    + vm_compute. discriminate.
    + destruct (Hnil eq_refl) as [Hslot Hgone].
      exists w'. split; [exact Hset|]. split; [exact Hslot|].
      split; [exact (Hgone 5%positive eq_refl)|].
      split; [rewrite Htrace; reflexivity|].
      apply Hget. reflexivity.
  - destruct (C10_SetData_frees_then_installs example_world2 example_peer2
                (Some [x68; x69]) example_peer2_owned)
      as (_ & w' & Hset & _ & _ & _ & Htrace).
    + vm_compute. discriminate.
    + assert (Hslot : slot w' example_peer2 = Some 1%positive)
        by (vm_compute in Hset; injection Hset as <-; reflexivity).
      exists w', 1%positive. split; [exact Hset|]. split; [exact Hslot|].
      rewrite Htrace, Hslot. reflexivity.
Defined.

(** Below 2^31 bytes the data comes back as it went in, nil as nil. *)
Lemma SetData_GetData_roundtrip {NativeState : Type} (w : World NativeState)
    (peer : enetPeer) (d : Go.bytes) :
  slot_owned w peer ->
  Go.len d < 2 ^ 31 ->
  exists w', (SetData peer d;; GetData peer) w = Ok d w'.
Proof.
  intros Hown Hlen.
  destruct (slot_owned_inv w peer Hown) as (a & s & -> & Hs & _ & Hfree).
  exists (after_SetData w a s d).
  rewrite (SetData_GetData w a s d Hs Hfree) by (unfold Go.MaxUint32; lia).
  destruct (Z.ltb_spec (Go.len d) (2 ^ 31)); [reflexivity|lia].
Qed.

(** From 2^31 bytes on, still within the bound [SetData] checks, [GetData]
    panics. *)
Lemma SetData_GetData_panics {NativeState : Type} (w : World NativeState)
    (peer : enetPeer) (d : Go.bytes) :
  slot_owned w peer ->
  2 ^ 31 <= Go.len d <= Go.MaxUint32 ->
  exists w', (SetData peer d;; GetData peer) w = Panic gobytes_out_of_range w'.
Proof.
  intros Hown Hlen.
  destruct (slot_owned_inv w peer Hown) as (a & s & -> & Hs & _ & Hfree).
  exists (after_SetData w a s d).
  rewrite (SetData_GetData w a s d Hs Hfree) by lia.
  destruct (Z.ltb_spec (Go.len d) (2 ^ 31)); [lia|reflexivity].
Qed.

(** C1, at a slice of 2^31 zero bytes (within the 32-bit bound): [SetData]
    stores it and [GetData] then panics instead of returning a copy. *)
Theorem C1_GetData_panics_at_2GiB :
  let d : Go.bytes := Some (repeat x00 (Z.to_nat 2147483648)) in
  Go.len d = 2147483648 /\
  Go.len d <= Go.MaxUint32 /\
  exists w',
    (SetData example_peer d;; GetData example_peer) example_world
    = Panic gobytes_out_of_range w'.
Proof.
  intros d.
  assert (Hlen : Go.len d = 2147483648).
  { unfold d, Go.len. rewrite repeat_length. apply Z2Nat.id. lia. }
  split; [exact Hlen|]. split; [rewrite Hlen; unfold Go.MaxUint32; lia|].
  apply SetData_GetData_panics; [exact example_peer_owned|].
  rewrite Hlen. unfold Go.MaxUint32. lia.
Qed.

(** At 2^32 zero bytes [SetData] panics and changes nothing. *)
Example SetData_panics_at_4GiB :
  SetData example_peer (Some (repeat x00 (Z.to_nat 4294967296))) example_world
  = Panic SetData_too_long example_world.
Proof.
  unfold SetData.
  destruct (Z.ltb_spec Go.MaxUint32
              (Go.len (Some (repeat x00 (Z.to_nat 4294967296))))) as [_|H];
    [reflexivity|].
  exfalso. revert H. unfold Go.len, Go.MaxUint32.
  rewrite repeat_length, Z2Nat.id; lia.
Qed.

(** Three bytes go in and come back; nil comes back as nil. *)
Example SetData_GetData_three_bytes :
  exists w',
    (SetData example_peer (Some [x01; x02; x03]);; GetData example_peer) example_world
    = Ok (Some [x01; x02; x03]) w' /\
    (SetData example_peer None;; GetData example_peer) w' = Ok None
      (mkWorld (mem example_world)
         [call_CBytes [x03; x00; x00; x00; x01; x02; x03] 1%positive;
          call_free 1%positive]).
Proof.
  eexists. split; [vm_compute; reflexivity|]. vm_compute. reflexivity.
Qed.

(** ** Sending *)

Section Sending.

Context {NativeState : Type} (lib : ENet NativeState).
Variable NewPacket :
  Go.bytes -> PacketFlags -> CMem NativeState -> Packet * Go.error * CMem NativeState.
Implicit Types (w : World NativeState) (peer : enetPeer) (host : enetHost).

(** [SendPacket] on a packet of the package: one native call, its result
    recorded and dropped. *)
Lemma SendPacket_impl peer (p : enetPacket) (channel : Z) w :
  SendPacket lib peer (Go.impl p) channel w =
    let '(r, m) := enet_peer_send lib (cPeer peer) (Go.uint8 channel) (cPacket p) (mem w) in
    Ok None (mkWorld m (trace w ++
      [call_enet_peer_send (cPeer peer) (Go.uint8 channel) (cPacket p) r])).
Proof.
  unfold SendPacket, assert_impl. run_step.
  destruct (enet_peer_send _ _ _ _ _) as [r m]. reflexivity.
Qed.

Lemma BroadcastPacket_impl host (p : enetPacket) (channel : Z) w :
  BroadcastPacket lib host (Go.impl p) channel w =
    Ok None (mkWorld
      (enet_host_broadcast lib (cHost host) (Go.uint8 channel) (cPacket p) (mem w))
      (trace w ++ [call_enet_host_broadcast (cHost host) (Go.uint8 channel) (cPacket p)])).
Proof. reflexivity. Qed.

(** C2, as the code has it: [SendPacket] and [BroadcastPacket] make the
    native call and return nil, whatever the native send reports; the
    result of [enet_peer_send] only shows in the trace. *)
Theorem C2_send_returns_nil_whatever_native_reports peer host
    (p : enetPacket) (channel : Z) w :
  let r := fst (enet_peer_send lib (cPeer peer) (Go.uint8 channel) (cPacket p) (mem w)) in
  (exists w', SendPacket lib peer (Go.impl p) channel w = Ok None w' /\
              trace w' = trace w ++
                [call_enet_peer_send (cPeer peer) (Go.uint8 channel) (cPacket p) r]) /\
  (exists w', BroadcastPacket lib host (Go.impl p) channel w = Ok None w' /\
              trace w' = trace w ++
                [call_enet_host_broadcast (cHost host) (Go.uint8 channel) (cPacket p)]).
Proof.
  cbn zeta. split.
  - rewrite SendPacket_impl.
    destruct (enet_peer_send _ _ _ _ _) as [r m]. eauto.
  - rewrite BroadcastPacket_impl. eauto.
Qed.

(** C5: the bytes and string variants are the specified wrapper around
    the packet primitive, the string variants are the bytes variants on the
    bytes of the string, and a failed packet construction returns its error
    with no call into the native library after it. *)
Theorem C5_wrappers_refine_packet_send peer host (d : Go.bytes) (str : string)
    (channel : Z) (flags : PacketFlags) w :
  SendBytes lib NewPacket peer d channel flags w
    = wrapper_spec NewPacket (SendPacket lib peer) d channel flags w /\
  BroadcastBytes lib NewPacket host d channel flags w
    = wrapper_spec NewPacket (BroadcastPacket lib host) d channel flags w /\
  SendString lib NewPacket peer str channel flags w
    = SendBytes lib NewPacket peer (Go.bytes_of_string str) channel flags w /\
  BroadcastString lib NewPacket host str channel flags w
    = BroadcastBytes lib NewPacket host (Go.bytes_of_string str) channel flags w /\
  (forall e, snd (fst (NewPacket d flags (mem w))) = Some e ->
     exists w', SendBytes lib NewPacket peer d channel flags w = Ok (Some e) w' /\
                BroadcastBytes lib NewPacket host d channel flags w = Ok (Some e) w' /\
                trace w' = trace w).
Proof.
  repeat split; try reflexivity.
  - unfold SendBytes, wrapper_spec. run_step.
    destruct (NewPacket d flags (mem w)) as [[pkt [e|]] m]; reflexivity.
  - unfold BroadcastBytes, wrapper_spec. run_step.
    destruct (NewPacket d flags (mem w)) as [[pkt [e|]] m]; reflexivity.
  - intros e He. unfold SendBytes, BroadcastBytes. run_step.
    destruct (NewPacket d flags (mem w)) as [[pkt err] m].
    cbn in He. subst err. eexists. repeat split.
Qed.

End Sending.

(** A failed packet construction: the error comes back and the world is as
    it was. *)
Example SendBytes_construction_fails :
  SendBytes example_lib example_NewPacket example_peer None 0 0 example_world
  = Ok (Some "unable to create packet"%string) example_world.
Proof. reflexivity. Qed.

(** A nil packet makes [SendPacket] panic before any native call. *)
Example SendPacket_nil_packet_panics :
  exists msg,
    SendPacket example_lib example_peer Go.inil 0 example_world
    = Panic msg example_world.
Proof. eexists. reflexivity. Qed.

(** C2, the claim as stated fails: the toy library fails the send with -1
    and [SendPacket] returns nil. *)
Lemma C2_counterexample :
  fst (enet_peer_send example_lib (cPeer example_peer) 0 (Some 7%positive)
         (mem example_world)) = -1 /\
  exists w', SendPacket example_lib example_peer example_packet 0 example_world
             = Ok None w'.
Proof.
  split; [reflexivity|]. eexists. vm_compute. reflexivity.
Qed.

(** ** Hosts *)

Section Hosts.

Context {NativeState : Type} (lib : ENet NativeState).
Implicit Types (w : World NativeState) (host : enetHost).

(** C3: [NewHost] takes a nil bind address and passes NULL to the native
    constructor; it returns an error exactly when the constructor returns
    NULL, and a non-nil host exactly when the error is nil. *)
Theorem C3_NewHost_error_iff_creation_fails (bind : option enetAddress)
    (peerCount channelLimit incomingBandwidth outgoingBandwidth bufferLimit : Z) w :
  let created :=
    fst (enet_host_create lib (cAddr <$> bind)
           (Go.uint64 peerCount) (Go.uint64 channelLimit)
           (Go.uint32 incomingBandwidth) (Go.uint32 outgoingBandwidth)
           (Go.int32 bufferLimit) (mem w)) in
  exists (h : Host) (err : Go.error) w',
    NewHost lib (bind_address bind) peerCount channelLimit
      incomingBandwidth outgoingBandwidth bufferLimit w = Ok (h, err) w' /\
    trace w' = trace w ++ [call_enet_host_create (cAddr <$> bind) created] /\
    (err <> None <-> created = None) /\
    (h <> Go.inil <-> err = None) /\
    (err = None -> h = Go.impl (mkHost created)).
Proof.
  cbn zeta. unfold NewHost.
  destruct bind as [a|]; cbn [bind_address fmap option_fmap option_map assert_impl];
    run_step;
    destruct (enet_host_create _ _ _ _ _ _ _ _) as [[c|] m]; cbn [fst];
    eexists _, _, _; (split; [reflexivity|]); cbn [trace];
    repeat split; try discriminate; try congruence.
Qed.

Lemma reset_step w a (h : ENetHost) (f : ENetHost -> ENetHost) :
  hosts (mem w) !! a = Some h ->
  (h' ← read_host (Some a); write_host (Some a) (f h')) w
  = Ok tt (with_host w a (f h)).
Proof.
  intros Hh. unfold read_host, write_host. run_step. rewrite Hh. reflexivity.
Qed.

(** C4: each reset zeroes its own counter of the host and leaves the other
    three, every other host, and the rest of the world as they were. *)
Theorem C4_resets_are_independent w (a : addr) (h : ENetHost) :
  hosts (mem w) !! a = Some h ->
  ResetBytesSent (mkHost (Some a)) w =
    Ok tt (with_host w a (mkENetHost 0 (totalSentPackets h)
                            (totalReceivedData h) (totalReceivedPackets h))) /\
  ResetBytesReceived (mkHost (Some a)) w =
    Ok tt (with_host w a (mkENetHost (totalSentData h) (totalSentPackets h)
                            0 (totalReceivedPackets h))) /\
  ResetPacketsSent (mkHost (Some a)) w =
    Ok tt (with_host w a (mkENetHost (totalSentData h) 0
                            (totalReceivedData h) (totalReceivedPackets h))) /\
  ResetPacketsReceived (mkHost (Some a)) w =
    Ok tt (with_host w a (mkENetHost (totalSentData h) (totalSentPackets h)
                            (totalReceivedData h) 0)) /\
  forall h' b, b <> a -> hosts (mem (with_host w a h')) !! b = hosts (mem w) !! b.
Proof.
  intros Hh.
  repeat split.
  - apply (reset_step w a h (fun h => mkENetHost 0 (totalSentPackets h)
                               (totalReceivedData h) (totalReceivedPackets h)) Hh).
  - apply (reset_step w a h (fun h => mkENetHost (totalSentData h)
                               (totalSentPackets h) 0 (totalReceivedPackets h)) Hh).
  - apply (reset_step w a h (fun h => mkENetHost (totalSentData h) 0
                               (totalReceivedData h) (totalReceivedPackets h)) Hh).
  - apply (reset_step w a h (fun h => mkENetHost (totalSentData h)
                               (totalSentPackets h) (totalReceivedData h) 0) Hh).
  - intros h' b Hb. cbn. apply lookup_insert_ne. congruence.
Qed.

(** C6, as the code has it: [Service] returns one event, never nil, namely
    the event the native call wrote into a zeroed struct, and drops the
    native status.  With a native library that reports by status, the event
    is the none sentinel when the timeout elapsed with nothing to report and
    also when the native call failed, and a Connect, Disconnect or Receive
    event when the call reported one. *)
Theorem C6_Service_returns_the_event_or_none host (timeout : Z) w :
  reports_by_status lib ->
  let '(status, written, m) :=
    enet_host_service lib (cHost host) zero_ENetEvent (Go.uint32 timeout) (mem w) in
  Service lib host timeout w =
    Ok (Go.impl (mkEvent written))
       (mkWorld m (trace w ++
          [call_enet_host_service (cHost host) (Go.uint32 timeout) status])) /\
  (status <= 0 -> ev_type written = ENET_EVENT_TYPE_NONE) /\
  (0 < status ->
     ev_type written = ENET_EVENT_TYPE_CONNECT \/
     ev_type written = ENET_EVENT_TYPE_DISCONNECT \/
     ev_type written = ENET_EVENT_TYPE_RECEIVE).
Proof.
  intros Hlib.
  pose proof (Hlib (cHost host) zero_ENetEvent (Go.uint32 timeout) (mem w)) as Hc.
  unfold Service. run_step. cbn [cEvent].
  destruct (enet_host_service _ _ _ _ _) as [[status written] m].
  destruct Hc as [Hnone Hsome].
  split; [reflexivity|]. split.
  - intros Hs. destruct (Hnone Hs) as [H|H]; exact H.
  - intros Hs. specialize (Hsome Hs).
    destruct (ev_type written); auto. contradiction.
Qed.

End Hosts.

(** An address implemented outside the package makes [NewHost] panic at the
    type assertion: it returns neither a host nor an error. *)
Example NewHost_foreign_address_panics :
  exists msg,
    NewHost example_lib Go.foreign 32 2 0 0 0 example_world
    = Panic msg example_world.
Proof. eexists. reflexivity. Qed.

(** The toy library creates a host for 32 peers and refuses 5000. *)
Example NewHost_examples :
  (exists w', NewHost example_lib Go.inil 32 2 0 0 0 example_world
              = Ok (Go.impl (mkHost (Some 2%positive)), None) w') /\
  (exists w', NewHost example_lib Go.inil 5000 2 0 0 0 example_world
              = Ok (Go.inil, Some "unable to create host"%string) w').
Proof. split; eexists; vm_compute; reflexivity. Qed.

(** With nothing to report, [Service] returns the none event. *)
Example Service_nothing_to_report :
  exists w',
    Service example_lib example_host 100 example_world
    = Ok (Go.impl (mkEvent zero_ENetEvent)) w'.
Proof. eexists. reflexivity. Qed.

Lemma C4_witness :
  hosts (mem example_world) !! 1%positive = Some (mkENetHost 10 20 30 40) /\
  ResetBytesSent example_host example_world =
    Ok tt (with_host example_world 1%positive (mkENetHost 0 20 30 40)).
Proof.
  split; [reflexivity|].
  apply (C4_resets_are_independent example_world 1%positive
           (mkENetHost 10 20 30 40)).
  reflexivity.
Defined.

Lemma connecting_lib_reports_by_status : reports_by_status connecting_lib.
Proof.
  intros h e timeout m. cbn. split; [lia|discriminate].
Defined.

Lemma failing_lib_reports_by_status : reports_by_status failing_lib.
Proof.
  intros h e timeout m. cbn. split; [auto|lia].
Defined.

Lemma C6_witness :
  reports_by_status connecting_lib /\
  Service connecting_lib example_host 100 example_world =
    Ok (Go.impl (mkEvent (mkENetEvent ENET_EVENT_TYPE_CONNECT (Some 1%positive) 0 0 None)))
       (mkWorld (mem example_world)
          [call_enet_host_service (Some 1%positive) 100 1]).
Proof.
  split; [exact connecting_lib_reports_by_status|].
  exact (proj1 (C6_Service_returns_the_event_or_none connecting_lib example_host
                  100 example_world connecting_lib_reports_by_status)).
Defined.

(** C6, the claim as stated fails: the native call fails with -1, which is
    not a timeout with nothing to report, and [Service] returns the none
    event, not a Connect, Disconnect or Receive event. *)
Lemma C6_counterexample :
  reports_by_status failing_lib /\
  fst (fst (enet_host_service failing_lib (cHost example_host) zero_ENetEvent
              100 (mem example_world))) = -1 /\
  exists (ev : enetEvent) w',
    Service failing_lib example_host 100 example_world = Ok (Go.impl ev) w' /\
    ev_type (cEvent ev) = ENET_EVENT_TYPE_NONE.
Proof.
  split; [exact failing_lib_reports_by_status|]. split; [reflexivity|].
  eexists _, _. split; reflexivity.
Qed.

(** The zeroed struct matters: [ServiceV2] on a struct that still holds an
    earlier Connect event hands that event back when the native call has
    nothing to report. *)
Example ServiceV2_keeps_a_stale_event :
  let stale := mkENetEvent ENET_EVENT_TYPE_CONNECT (Some 1%positive) 0 0 None in
  exists w',
    ServiceV2 example_lib example_host (Some (mkEvent stale)) 100 example_world
    = Ok (mkEvent stale, 0) w'.
Proof. eexists. reflexivity. Qed.

(** ** Addresses *)

(** C7, as the code has it: [SetPort] replaces the port of an address, which
    [GetPort] then returns, and leaves its host as it was. *)
Theorem C7_SetPort_replaces_the_port (addr : enetAddress) (p : Z) :
  GetPort (SetPort addr p) = Go.uint16 p /\
  host (cAddr (SetPort addr p)) = host (cAddr addr) /\
  (0 <= p < 65536 -> GetPort (SetPort addr p) = p).
Proof.
  unfold GetPort, SetPort, Go.uint16. cbn [cAddr port host].
  rewrite Z.mod_mod by lia. repeat split.
  intros Hp. apply Z.mod_small. lia.
Qed.

(** C7, the claim as stated fails: the address [NewAddress] constructs with
    port 9000 has port 9001 after [SetPort]. *)
Lemma C7_counterexample :
  exists (a : enetAddress) w',
    NewAddress example_lib "127.0.0.1" 9000 example_world = Ok (Go.impl a) w' /\
    GetPort a = 9000 /\
    GetPort (SetPort a 9001) = 9001.
Proof.
  eexists _, _. split; [vm_compute; reflexivity|]. split; reflexivity.
Qed.

(** ** The codec round trip *)

Module CodecFacts.
Import Codec.

Lemma fits_shift (w : nat) (v : Z) : fits (S w) v -> fits w (Z.shiftr v 8).
Proof.
  unfold fits. rewrite Nat2Z.inj_succ, Z.pow_succ_r by lia.
  rewrite Z.shiftr_div_pow2 by lia. change (2 ^ 8) with 256.
  intros [H0 H1]. split.
  - apply Z.div_pos; lia.
  - apply Z.div_lt_upper_bound; lia.
Qed.

(** A field reads back, whatever follows it. *)
Lemma get_put (w : nat) : forall (v : Z) (rest : list byte),
  fits w v -> get w (put w v ++ rest) = Some (v, rest).
Proof.
  induction w as [|w IH]; intros v rest Hv.
  - unfold fits in Hv. cbn in Hv. cbn. f_equal. f_equal. lia.
  - cbn [put get app]. rewrite (IH _ rest (fits_shift w v Hv)).
    cbn. rewrite Z_of_byte_of_Z. f_equal. f_equal.
    rewrite Z.shiftr_div_pow2 by lia. change (2 ^ 8) with 256.
    pose proof (Z.div_mod v 256). lia.
Qed.

Lemma get_put_end (w : nat) (v : Z) :
  fits w v -> get w (put w v) = Some (v, []).
Proof.
  intros Hv. rewrite <- (app_nil_r (put w v)). apply get_put, Hv.
Qed.

(** A payload at the end of the buffer reads back. *)
Lemma get_put_payload (L : Layout) (p : list byte) :
  fits (w_payloadLength L) (Z.of_nat (length p)) ->
  get_payload L (put_payload L p) = Some p.
Proof.
  intros Hp. unfold get_payload, put_payload.
  rewrite get_put by exact Hp. cbn.
  destruct (Z.leb_spec (Z.of_nat (length p)) (Z.of_nat (length p))); [|lia].
  rewrite Nat2Z.id, take_ge by lia. reflexivity.
Qed.

Lemma kind_listed (k : Kind) : In k kinds.
Proof. destruct k; cbn; tauto. Qed.

(** With distinct tags, the tag of a kind is read as that kind. *)
Lemma kind_of_tag_tag (L : Layout) (k : Kind) :
  distinct_tags L -> kind_of_tag L (tag L k) = Some k.
Proof.
  intros Hd. unfold kind_of_tag.
  destruct (find _ kinds) as [k'|] eqn:E.
  - apply find_some in E as [_ E]. apply Byte.byte_dec_bl in E.
    f_equal. apply Hd, E.
  - pose proof (find_none _ _ E k (kind_listed k)) as E'. cbn beta in E'.
    rewrite Byte.byte_dec_lb in E' by reflexivity. discriminate.
Qed.

End CodecFacts.

(** C8: with distinct tags, decoding the encoding of a typed message of any
    kind yields the message. *)
Theorem C8_codec_roundtrip (L : Codec.Layout) (m : Codec.Message) :
  Codec.distinct_tags L ->
  Codec.well_typed L m ->
  Codec.Decode L (Codec.Encode L m) = Codec.Decoded m.
Proof.
  intros Hd Hm. unfold Codec.Decode, Codec.Encode.
  rewrite (CodecFacts.kind_of_tag_tag L _ Hd).
  destruct m; cbn [Codec.kind_of Codec.decode_body Codec.well_typed] in *;
    try reflexivity;
    repeat match type of Hm with _ /\ _ => destruct Hm as [? Hm] end;
    repeat (rewrite CodecFacts.get_put by assumption; cbn [mbind option_bind]);
    rewrite ?CodecFacts.get_put_end, ?CodecFacts.get_put_payload by assumption;
    reflexivity.
Qed.

Lemma C8_witness :
  let m := Codec.ReliableData 1 7 [x68; x69] in
  Codec.distinct_tags Codec.example_layout /\
  Codec.well_typed Codec.example_layout m /\
  Codec.Encode Codec.example_layout m = [x06; x01; x07; x00; x02; x00; x00; x00; x68; x69] /\
  Codec.Decode Codec.example_layout (Codec.Encode Codec.example_layout m) = Codec.Decoded m.
Proof.
  assert (Hd : Codec.distinct_tags Codec.example_layout).
  { intros k1 k2; destruct k1, k2; cbn; intros H; first [reflexivity|discriminate H]. }
  assert (Hm : Codec.well_typed Codec.example_layout (Codec.ReliableData 1 7 [x68; x69])).
  { cbn. unfold Codec.fits. cbn. lia. }
  split; [exact Hd|]. split; [exact Hm|]. split; [reflexivity|].
  exact (C8_codec_roundtrip Codec.example_layout _ Hd Hm).
Defined.

(** Decoding fails on an unknown tag and on a payload length beyond the
    buffer. *)
Example Decode_malformed :
  Codec.Decode Codec.example_layout [x00] = Codec.MalformedMessage /\
  Codec.Decode Codec.example_layout [x08; x01; x05; x00; x00; x00; x68]
    = Codec.MalformedMessage.
Proof. split; reflexivity. Qed.


(** ** More on the data slot *)

Section PeerDataMore.

Context {NativeState : Type}.
Implicit Types (w : World NativeState) (s : ENetPeer) (a : addr) (d : Go.bytes).

(** [GetData] on a live peer is a function of the slot and of the block
    behind it, and hands the world back as it got it. *)
Lemma GetData_reads w a s :
  peers (mem w) !! a = Some s ->
  GetData (mkPeer (Some a)) w =
    match ENetPeer_data s with
    | None => Ok None w
    | Some q =>
        match heap (mem w) !! q ≫= read_block with
        | Some (inr r) => Ok r w
        | Some (inl msg) => Panic msg w
        | None => Undefined
        end
    end.
Proof.
  intros Hs. unfold GetData, read_peer, load_byte. cbn [cPeer]. run_step.
  rewrite Hs. destruct (ENetPeer_data s) as [q|]; [|reflexivity].
  destruct (heap (mem w) !! q) as [blk|] eqn:Hb; [|reflexivity].
  cbn [mbind option_bind].
  destruct blk as [|b0 [|b1 [|b2 [|b3 rest]]]];
    repeat (progress (cbn [lookup list_lookup]; rewrite ?Hb)); try reflexivity.
  cbn [read_block Go.Uint32 mbind option_bind]. unfold GoBytes.
  destruct (_ =? 0); [reflexivity|].
  destruct (_ <? 0); [reflexivity|]. run_step. rewrite Hb.
  change (Z.of_nat 4) with 4. cbn [drop].
  destruct (_ <=? _); reflexivity.
Qed.

(** [GetData] changes nothing: whenever it returns or panics, the world is
    the one it was called in. *)
Theorem GetData_is_read_only w (peer : enetPeer) :
  match GetData peer w with
  | Ok _ w' | Panic _ w' => w' = w
  | Undefined => True
  end.
Proof.
  destruct peer as [[a|]]; [|reflexivity].
  destruct (peers (mem w) !! a) as [s|] eqn:Hs.
  - rewrite (GetData_reads w a s Hs).
    destruct (ENetPeer_data s) as [q|]; [|reflexivity].
    destruct (heap (mem w) !! q ≫= read_block) as [[msg|r]|]; reflexivity.
  - unfold GetData, read_peer. cbn [cPeer]. run_step. rewrite Hs. exact I.
Qed.

(** A block that is allocated and is not the one [SetData] releases is the
    same block afterwards. *)
Lemma after_SetData_heap w a s d (q : addr) :
  is_Some (heap (mem w) !! q) ->
  ENetPeer_data s <> Some q ->
  heap (mem (after_SetData w a s d)) !! q = heap (mem w) !! q.
Proof.
  intros Hq Hold.
  assert (Hrel : released (ENetPeer_data s) (heap (mem w)) !! q = heap (mem w) !! q).
  { unfold released. destruct (ENetPeer_data s) as [o|]; [|reflexivity].
    apply lookup_delete_ne. congruence. }
  destruct d as [l|]; cbn [after_SetData mem heap]; [|exact Hrel].
  rewrite lookup_insert_ne; [exact Hrel|].
  intros <-.
  pose proof (is_fresh (dom (released (ENetPeer_data s) (heap (mem w))))) as Hf.
  apply Hf, elem_of_dom. rewrite Hrel. exact Hq.
Qed.

(** [SetData] keeps the slots sound: from a world where every slot is NULL
    or an allocated block of its own, it leads to such a world. *)
Theorem SetData_keeps_slots_sound w a s d :
  slots_sound w ->
  peers (mem w) !! a = Some s ->
  Go.len d <= Go.MaxUint32 ->
  exists w', SetData (mkPeer (Some a)) d w = Ok tt w' /\ slots_sound w'.
Proof.
  intros [Halloc Hapart] Hs Hlen.
  exists (after_SetData w a s d).
  split; [apply SetData_returns; eauto|].
  assert (Hother : forall b sb q, b <> a -> peers (mem w) !! b = Some sb ->
            ENetPeer_data sb = Some q ->
            heap (mem (after_SetData w a s d)) !! q = heap (mem w) !! q /\
            is_Some (heap (mem w) !! q)).
  { intros b sb q Hb Hsb Hq. split; [|eauto].
    apply after_SetData_heap; [eauto|].
    intros Ho. apply Hb. exact (Hapart b a sb s q Hsb Hs Hq Ho). }
  set (H := released (ENetPeer_data s) (heap (mem w))) in *.
  set (slot' := match d with Some _ => Some (fresh (dom H)) | None => None end).
  assert (Hpeers : peers (mem (after_SetData w a s d))
                   = <[a := mkENetPeer (address s) slot']> (peers (mem w)))
    by (destruct d; reflexivity).
  assert (Hnew : forall b sb q, b <> a -> peers (mem w) !! b = Some sb ->
            ENetPeer_data sb = Some q -> slot' <> Some q).
  { intros b sb q Hb Hsb Hq. subst slot'. destruct d as [l|]; [|discriminate].
    intros [= Hf]. apply (is_fresh (dom H)). rewrite Hf. apply elem_of_dom.
    destruct (Hother b sb q Hb Hsb Hq) as [_ Hal].
    subst H. unfold released. destruct (ENetPeer_data s) as [o|] eqn:Ho; [|exact Hal].
    rewrite lookup_delete_ne; [exact Hal|].
    intros ->. apply Hb. exact (Hapart b a sb s q Hsb Hs Hq Ho). }
  split.
  - intros b sb q Hsb Hq. rewrite Hpeers in Hsb.
    destruct (decide (a = b)) as [<-|Hne].
    + rewrite lookup_insert_eq in Hsb. injection Hsb as <-. cbn in Hq.
      subst slot'. destruct d as [l|]; [|discriminate].
      injection Hq as <-. cbn [after_SetData mem heap].
      rewrite lookup_insert_eq. eauto.
    + rewrite lookup_insert_ne in Hsb by exact Hne.
      destruct (Hother b sb q (not_eq_sym Hne) Hsb Hq) as [-> ?]. assumption.
  - intros b1 b2 s1 s2 q H1 H2 Hq1 Hq2. rewrite Hpeers in H1, H2.
    destruct (decide (a = b1)) as [<-|Hn1], (decide (a = b2)) as [<-|Hn2];
      [reflexivity| | |].
    + rewrite lookup_insert_eq in H1. rewrite lookup_insert_ne in H2 by exact Hn2.
      injection H1 as <-. cbn in Hq1.
      exfalso. exact (Hnew b2 s2 q (not_eq_sym Hn2) H2 Hq2 Hq1).
    + rewrite lookup_insert_eq in H2. rewrite lookup_insert_ne in H1 by exact Hn1.
      injection H2 as <-. cbn in Hq2.
      exfalso. exact (Hnew b1 s1 q (not_eq_sym Hn1) H1 Hq1 Hq2).
    + rewrite lookup_insert_ne in H1 by exact Hn1.
      rewrite lookup_insert_ne in H2 by exact Hn2.
      exact (Hapart b1 b2 s1 s2 q H1 H2 Hq1 Hq2).
Qed.

(** [SetData] on one peer leaves what [GetData] returns for every other
    peer as it was. *)
Theorem SetData_keeps_other_peers w a s d (other : enetPeer) :
  slots_sound w ->
  peers (mem w) !! a = Some s ->
  cPeer other <> Some a ->
  Go.len d <= Go.MaxUint32 ->
  exists w', SetData (mkPeer (Some a)) d w = Ok tt w' /\
             outcome_value (GetData other w') = outcome_value (GetData other w).
Proof.
  intros [Halloc Hapart] Hs Hne Hlen.
  exists (after_SetData w a s d).
  split; [apply SetData_returns; eauto|].
  destruct other as [[b|]]; [|reflexivity]. cbn [cPeer] in Hne.
  assert (Hb : peers (mem (after_SetData w a s d)) !! b = peers (mem w) !! b).
  { destruct d; cbn [after_SetData mem peers]; apply lookup_insert_ne; congruence. }
  destruct (peers (mem w) !! b) as [sb|] eqn:Hsb.
  - rewrite (GetData_reads _ b sb Hb), (GetData_reads w b sb Hsb).
    destruct (ENetPeer_data sb) as [q|] eqn:Hq; [|reflexivity].
    rewrite after_SetData_heap; [| eauto |].
    + destruct (heap (mem w) !! q ≫= read_block) as [[msg|r]|]; reflexivity.
    + intros Ho. apply Hne. f_equal. exact (Hapart b a sb s q Hsb Hs Hq Ho).
  - unfold GetData, read_peer. cbn [cPeer]. run_step. rewrite Hb, Hsb. reflexivity.
Qed.

(** [SetData] overwrites without a leak: after two calls the heap is the
    heap before them with the block of the old slot released and, unless the
    second call passed nil, one block for the second data; nothing of the
    first data is left. *)
Theorem SetData_twice_leaves_one_block w (peer : enetPeer) (d1 d2 : Go.bytes) :
  slot_owned w peer ->
  Go.len d1 <= Go.MaxUint32 ->
  Go.len d2 <= Go.MaxUint32 ->
  let H := released (slot w peer) (heap (mem w)) in
  exists w1 w2 q,
    SetData peer d1 w = Ok tt w1 /\
    SetData peer d2 w1 = Ok tt w2 /\
    H !! q = None /\
    heap (mem w2) = match d2 with
                    | Some l => <[q := length_header l ++ l]> H
                    | None => H
                    end.
Proof.
  intros Hown H1 H2 H.
  destruct (slot_owned_inv w peer Hown) as (a & s & -> & Hs & Hslot & Hfree).
  set (w1 := after_SetData w a s d1).
  destruct (after_SetData_owned w a s d1) as [Hown1 _].
  destruct (slot_owned_inv w1 _ Hown1) as (a' & s1 & [= <-] & Hs1 & Hslot1 & Hfree1).
  exists w1, (after_SetData w1 a s1 d2), (fresh (dom H)).
  split; [apply SetData_returns; assumption|].
  split; [apply SetData_returns; assumption|].
  assert (Hq : H !! fresh (dom H) = None)
    by (apply not_elem_of_dom, is_fresh).
  split; [exact Hq|].
  assert (Hrel : released (ENetPeer_data s1) (heap (mem w1)) = H).
  { subst H. rewrite Hslot.
    unfold w1 in Hs1 |- *.
    destruct d1 as [l1|]; cbn [after_SetData mem peers heap] in *;
      rewrite lookup_insert_eq in Hs1; injection Hs1 as <-; cbn [ENetPeer_data released].
    - apply delete_insert_id. apply not_elem_of_dom, is_fresh.
    - reflexivity. }
  destruct d2 as [l2|]; cbn [after_SetData mem heap]; rewrite Hrel; reflexivity.
Qed.

End PeerDataMore.

Lemma example_world2_sound : slots_sound example_world2.
Proof.
  split; cbn [example_world2 mem peers heap].
  - intros a s q H Hq.
    apply lookup_insert_Some in H as [[<- <-]|[_ H]]; [discriminate Hq|].
    apply lookup_singleton_Some in H as [<- <-].
    injection Hq as <-. rewrite lookup_singleton_eq. eauto.
  - intros a b sa sb q Ha Hb Hqa Hqb.
    apply lookup_insert_Some in Ha as [[<- <-]|[_ Ha]]; [discriminate Hqa|].
    apply lookup_insert_Some in Hb as [[<- <-]|[_ Hb]]; [discriminate Hqb|].
    apply lookup_singleton_Some in Ha as [<- _].
    apply lookup_singleton_Some in Hb as [<- _]. reflexivity.
Defined.

Lemma SetData_GetData_roundtrip_witness :
  slot_owned example_world example_peer /\
  Go.len (Some [x68; x69]) < 2 ^ 31 /\
  exists w', (SetData example_peer (Some [x68; x69]);; GetData example_peer)
               example_world = Ok (Some [x68; x69]) w'.
Proof.
  split; [exact example_peer_owned|]. split; [reflexivity|].
  apply (SetData_GetData_roundtrip example_world example_peer (Some [x68; x69])
           example_peer_owned).
  reflexivity.
Defined.

Lemma SetData_keeps_slots_sound_witness :
  slots_sound example_world2 /\
  exists w', SetData (mkPeer (Some 1%positive)) (Some [x68; x69]) example_world2
             = Ok tt w' /\ slots_sound w'.
Proof.
  split; [exact example_world2_sound|].
  apply (SetData_keeps_slots_sound example_world2 1%positive
           (mkENetPeer zero_ENetAddress None) (Some [x68; x69])
           example_world2_sound).
  - reflexivity.
  - vm_compute. discriminate.
Defined.

Lemma SetData_keeps_other_peers_witness :
  exists w', SetData (mkPeer (Some 1%positive)) (Some [x68; x69]) example_world2
             = Ok tt w' /\
             outcome_value (GetData (mkPeer (Some 2%positive)) w')
             = Some (inr (Some [x2a])).
Proof.
  destruct (SetData_keeps_other_peers example_world2 1%positive
              (mkENetPeer zero_ENetAddress None) (Some [x68; x69])
              (mkPeer (Some 2%positive)) example_world2_sound)
    as (w' & Hset & Hget).
  - reflexivity.
  - discriminate.
  - vm_compute. discriminate.
  - exists w'. split; [exact Hset|]. rewrite Hget. reflexivity.
Defined.

Lemma SetData_twice_leaves_one_block_witness :
  slot_owned example_world example_peer /\
  exists w1 w2,
    SetData example_peer (Some [x68; x69]) example_world = Ok tt w1 /\
    SetData example_peer None w1 = Ok tt w2 /\
    heap (mem w2) = heap (mem example_world).
Proof.
  split; [exact example_peer_owned|].
  destruct (SetData_twice_leaves_one_block example_world example_peer
              (Some [x68; x69]) None example_peer_owned)
    as (w1 & w2 & q & H1 & H2 & _ & Hheap).
  - vm_compute. discriminate.
  - vm_compute. discriminate.
  - exists w1, w2. split; [exact H1|]. split; [exact H2|]. exact Hheap.
Defined.

(** ** More on hosts, sending and addresses *)

Section HostsMore.

Context {NativeState : Type} (lib : ENet NativeState).
Variable NewPacket :
  Go.bytes -> PacketFlags -> CMem NativeState -> Packet * Go.error * CMem NativeState.
Implicit Types (w : World NativeState) (host : enetHost) (peer : enetPeer).

(** [Connect] returns an error exactly when the native call returns NULL
    and a peer exactly when the error is nil; a nil address, which [NewHost]
    accepts, makes [Connect] panic before any native call, and so does an
    address implemented outside the package. *)
Theorem Connect_error_iff_no_peer host (a : enetAddress) (channelCount data : Z) w :
  let connected :=
    fst (enet_host_connect lib (cHost host) (cAddr a)
           (Go.uint64 channelCount) (Go.uint32 data) (mem w)) in
  (exists (p : Peer) (err : Go.error) w',
     Connect lib host (Go.impl a) channelCount data w = Ok (p, err) w' /\
     trace w' = trace w ++ [call_enet_host_connect (cHost host) (cAddr a) connected] /\
     (err <> None <-> connected = None) /\
     (p <> Go.inil <-> err = None) /\
     (err = None -> p = Go.impl (mkPeer connected))) /\
  (exists msg, Connect lib host Go.inil channelCount data w = Panic msg w) /\
  (exists msg, Connect lib host Go.foreign channelCount data w = Panic msg w).
Proof.
  cbn zeta. split; [|split; eexists; reflexivity].
  unfold Connect. cbn [assert_impl]. run_step.
  destruct (enet_host_connect _ _ _ _ _ _) as [[c|] m]; cbn [fst];
    eexists _, _, _; (split; [reflexivity|]); cbn [trace];
    repeat split; try discriminate; try congruence.
Qed.

Lemma int32_periodic (v k : Z) : Go.int32 (v + k * 2 ^ 32) = Go.int32 v.
Proof.
  unfold Go.int32.
  replace (v + k * 2 ^ 32 + 2 ^ 31) with (v + 2 ^ 31 + k * 2 ^ 32) by lia.
  rewrite Z.mod_add by lia. reflexivity.
Qed.

(** [NewHost] passes its buffer limit, a Go int, through a 32-bit C int:
    limits that differ by a multiple of 2^32 create the same host. *)
Theorem NewHost_truncates_the_buffer_limit (addr : Address)
    (peerCount channelLimit incomingBandwidth outgoingBandwidth bufferLimit k : Z) w :
  NewHost lib addr peerCount channelLimit incomingBandwidth outgoingBandwidth
    (bufferLimit + k * 2 ^ 32) w
  = NewHost lib addr peerCount channelLimit incomingBandwidth outgoingBandwidth
      bufferLimit w.
Proof.
  unfold NewHost. rewrite int32_periodic. reflexivity.
Qed.

(** [Service] is [ServiceV2] on a zeroed event of its own with the status
    dropped: [ServiceV2] returns the event the native call wrote into the
    caller's struct together with the native status, [Service] the event
    alone. *)
Theorem Service_is_ServiceV2_without_status host (e : enetEvent) (timeout : Z) w :
  let '(status, written, m) :=
    enet_host_service lib (cHost host) (cEvent e) (Go.uint32 timeout) (mem w) in
  let w' := mkWorld m (trace w ++
              [call_enet_host_service (cHost host) (Go.uint32 timeout) status]) in
  ServiceV2 lib host (Some e) timeout w = Ok (mkEvent written, status) w' /\
  (e = mkEvent zero_ENetEvent ->
     Service lib host timeout w = Ok (Go.impl (mkEvent written)) w') /\
  ServiceV2 lib host None timeout w = Panic nil_dereference w.
Proof.
  destruct (enet_host_service _ _ _ _ _) as [[status written] m] eqn:E.
  unfold ServiceV2, Service. run_step. rewrite E.
  repeat split. intros ->. cbn [cEvent] in *. rewrite E. reflexivity.
Qed.

(** The struct a reset leaves. *)
Lemma Reset_returns (c : Counter) w (a : addr) (h : ENetHost) :
  hosts (mem w) !! a = Some h ->
  exists h', Reset c (mkHost (Some a)) w = Ok tt (with_host w a h') /\
             forall c', counter c' h' = if Counter_eqb c' c then 0 else counter c' h.
Proof.
  intros Hh. destruct c; cbn [Reset];
    unfold ResetBytesSent, ResetBytesReceived, ResetPacketsSent,
      ResetPacketsReceived; cbn [cHost].
  - exists (mkENetHost 0 (totalSentPackets h) (totalReceivedData h) (totalReceivedPackets h)).
    split; [|intros []; reflexivity].
    exact (reset_step w a h (fun h => mkENetHost 0 (totalSentPackets h)
                               (totalReceivedData h) (totalReceivedPackets h)) Hh).
  - exists (mkENetHost (totalSentData h) (totalSentPackets h) 0 (totalReceivedPackets h)).
    split; [|intros []; reflexivity].
    exact (reset_step w a h (fun h => mkENetHost (totalSentData h)
                               (totalSentPackets h) 0 (totalReceivedPackets h)) Hh).
  - exists (mkENetHost (totalSentData h) 0 (totalReceivedData h) (totalReceivedPackets h)).
    split; [|intros []; reflexivity].
    exact (reset_step w a h (fun h => mkENetHost (totalSentData h) 0
                               (totalReceivedData h) (totalReceivedPackets h)) Hh).
  - exists (mkENetHost (totalSentData h) (totalSentPackets h) (totalReceivedData h) 0).
    split; [|intros []; reflexivity].
    exact (reset_step w a h (fun h => mkENetHost (totalSentData h)
                               (totalSentPackets h) (totalReceivedData h) 0) Hh).
Qed.

Lemma with_host_same w (a : addr) (h : ENetHost) :
  hosts (mem w) !! a = Some h -> with_host w a h = w.
Proof.
  intros Hh. destruct w as [[hp ps hs n] t]. unfold with_host. cbn in *.
  rewrite insert_id by exact Hh. reflexivity.
Qed.

Lemma with_host_twice w (a : addr) (h1 h2 : ENetHost) :
  with_host (with_host w a h1) a h2 = with_host w a h2.
Proof.
  unfold with_host. cbn. rewrite insert_insert_eq. reflexivity.
Qed.

(** Resets compose: after any sequence of resets on a live host, each
    counter the sequence names is zero, every other counter has its old
    value, and the rest of the world is as it was; the order of the resets
    and repetitions make no difference. *)
Theorem Resets_zero_the_named_counters (cs : list Counter) w (a : addr) (h : ENetHost) :
  hosts (mem w) !! a = Some h ->
  exists h',
    Resets cs (mkHost (Some a)) w = Ok tt (with_host w a h') /\
    forall c, counter c h' = if existsb (Counter_eqb c) cs then 0 else counter c h.
Proof.
  revert w h. induction cs as [|c cs IH]; intros w h Hh.
  - exists h. split; [|reflexivity].
    cbn [Resets]. rewrite with_host_same by exact Hh. reflexivity.
  - destruct (Reset_returns c w a h Hh) as (h1 & Hr & Hc).
    destruct (IH (with_host w a h1) h1) as (h' & Hrs & Hcs).
    { cbn. apply lookup_insert_eq. }
    exists h'. split.
    + cbn [Resets]. unfold mbind, M_bind. rewrite Hr, Hrs.
      rewrite with_host_twice. reflexivity.
    + intros c'. rewrite Hcs, Hc. cbn [existsb].
      destruct (Counter_eqb c' c), (existsb (Counter_eqb c') cs); reflexivity.
Qed.

(** The only error the bytes wrappers return is the error of the packet
    construction, and then nothing was handed to the native library: a
    failed native send never shows as an error. *)
Theorem wrappers_return_only_the_construction_error peer host (d : Go.bytes)
    (channel : Z) (flags : PacketFlags) w (e : string) w' :
  SendBytes lib NewPacket peer d channel flags w = Ok (Some e) w' \/
  BroadcastBytes lib NewPacket host d channel flags w = Ok (Some e) w' ->
  snd (fst (NewPacket d flags (mem w))) = Some e /\
  trace w' = trace w /\
  mem w' = snd (NewPacket d flags (mem w)).
Proof.
  unfold SendBytes, BroadcastBytes, SendPacket, BroadcastPacket. run_step.
  destruct (NewPacket d flags (mem w)) as [[pkt [e'|]] m]; cbn [fst snd].
  - intros [[= <- <-]|[= <- <-]]; repeat split.
  - destruct pkt as [|p|]; cbn [assert_impl]; run_step;
      try destruct (enet_peer_send _ _ _ _ _); intros [H|H]; discriminate H.
Qed.

(** With a native library that leaves [malloc] blocks alone, [NewAddress]
    returns an address with the port it was given, whatever the name
    resolution did, and frees the C string it allocated: the heap is as it
    was.  [NewListenAddress] is [NewAddress] on the name "::". *)
Theorem NewAddress_sets_the_port_and_frees_the_name (ip : string) (p : Z) w :
  set_hostname_keeps_heap lib ->
  (exists (a : enetAddress) w',
     NewAddress lib ip p w = Ok (Go.impl a) w' /\
     GetPort a = Go.uint16 p /\
     heap (mem w') = heap (mem w)) /\
  NewListenAddress lib p w = NewAddress lib "::" p w.
Proof.
  intros Hkeep. split; [|reflexivity].
  unfold NewAddress, SetHost, CString, free. run_step.
  cbn [mem heap peers hosts native trace].
  set (q := fresh (dom (heap (mem w)))).
  set (m1 := mkCMem (<[q := _]> (heap (mem w))) _ _ _).
  pose proof (Hkeep (cAddr (mkAddress zero_ENetAddress))
                (c_string (list_byte_of_string ip)) m1) as Hh.
  destruct (enet_address_set_hostname lib _ _ m1) as [[r a'] m2].
  cbn [snd] in Hh. cbn [mem heap peers hosts native trace].
  rewrite Hh. subst m1. cbn [heap]. rewrite lookup_insert_eq.
  eexists _, _. split; [reflexivity|]. split.
  - unfold GetPort, SetPort, Go.uint16. cbn [cAddr port].
    apply Z.mod_mod. lia.
  - cbn [mem heap]. apply delete_insert_id, not_elem_of_dom, is_fresh.
Qed.

End HostsMore.

Lemma Resets_zero_the_named_counters_witness :
  hosts (mem example_world) !! 1%positive = Some (mkENetHost 10 20 30 40) /\
  exists h',
    Resets [PacketsSent; BytesSent; PacketsSent] example_host example_world
    = Ok tt (with_host example_world 1%positive h') /\
    counter BytesSent h' = 0 /\ counter PacketsSent h' = 0 /\
    counter BytesReceived h' = 30 /\ counter PacketsReceived h' = 40.
Proof.
  split; [reflexivity|].
  destruct (Resets_zero_the_named_counters [PacketsSent; BytesSent; PacketsSent]
              example_world 1%positive (mkENetHost 10 20 30 40) eq_refl)
    as (h' & Hr & Hc).
  exists h'. split; [exact Hr|].
  rewrite !Hc. repeat split.
Defined.

Lemma wrappers_return_only_the_construction_error_witness :
  SendBytes example_lib example_NewPacket example_peer None 0 0 example_world
    = Ok (Some "unable to create packet"%string) example_world /\
  snd (fst (example_NewPacket None 0 (mem example_world)))
    = Some "unable to create packet"%string /\
  trace example_world = trace example_world /\
  mem example_world = snd (example_NewPacket None 0 (mem example_world)).
Proof.
  split; [reflexivity|].
  apply (wrappers_return_only_the_construction_error example_lib
           example_NewPacket example_peer example_host None 0 0 example_world
           "unable to create packet" example_world).
  left. reflexivity.
Defined.

Lemma example_lib_keeps_heap : set_hostname_keeps_heap example_lib.
Proof. intros a name m. reflexivity. Defined.

Lemma NewAddress_sets_the_port_and_frees_the_name_witness :
  set_hostname_keeps_heap example_lib /\
  exists (a : enetAddress) w',
    NewAddress example_lib "127.0.0.1" 9000 example_world = Ok (Go.impl a) w' /\
    GetPort a = 9000 /\
    heap (mem w') = heap (mem example_world).
Proof.
  split; [exact example_lib_keeps_heap|].
  exact (proj1 (NewAddress_sets_the_port_and_frees_the_name example_lib
                  "127.0.0.1" 9000 example_world example_lib_keeps_heap)).
Defined.

Section StoredData.

Context {NativeState : Type}.
Implicit Types (w : World NativeState) (s : ENetPeer) (a : addr) (d : Go.bytes).

(** [SetData] keeps the blocks behind the slots well formed. *)
Theorem SetData_keeps_slots_holding_data w a s d :
  slots_sound w ->
  slots_hold_data w ->
  peers (mem w) !! a = Some s ->
  Go.len d <= Go.MaxUint32 ->
  exists w', SetData (mkPeer (Some a)) d w = Ok tt w' /\ slots_hold_data w'.
Proof.
  intros [Halloc Hapart] Hdata Hs Hlen.
  exists (after_SetData w a s d).
  split; [apply SetData_returns; eauto|].
  intros b sb q Hsb Hq.
  destruct (decide (a = b)) as [<-|Hne].
  - destruct d as [l|]; cbn [after_SetData mem peers heap] in *;
      rewrite lookup_insert_eq in Hsb; injection Hsb as <-; cbn in Hq;
      [|discriminate].
    injection Hq as <-. exists l. split; [apply lookup_insert_eq|exact Hlen].
  - assert (Hsb' : peers (mem w) !! b = Some sb).
    { destruct d; cbn [after_SetData mem peers] in Hsb;
        rewrite lookup_insert_ne in Hsb by exact Hne; exact Hsb. }
    rewrite after_SetData_heap; [eauto| eauto |].
    intros Ho. apply Hne. exact (Hapart a b s sb q Hs Hsb' Ho Hq).
Qed.

(** On a live peer whose slot holds data as [SetData] writes it, [GetData]
    never reads outside the block: it returns the data, or panics when the
    data has 2^31 bytes or more. *)
Theorem GetData_defined_on_stored_data w (peer : enetPeer) :
  slots_hold_data w ->
  is_Some (peer_struct w peer) ->
  exists r, outcome_value (GetData peer w) = Some r /\
            (forall msg, r = inl msg -> msg = gobytes_out_of_range).
Proof.
  intros Hdata [s Hs]. destruct peer as [[a|]]; [|discriminate].
  unfold peer_struct in Hs. cbn in Hs.
  destruct (ENetPeer_data s) as [q|] eqn:Hq.
  - destruct (Hdata a s q Hs Hq) as (l & Hb & Hlen).
    rewrite (GetData_block w a s q l Hs Hq Hb Hlen).
    destruct (_ <? _); eexists; (split; [reflexivity|]); congruence.
  - rewrite (GetData_reads w a s Hs), Hq. eexists. split; [reflexivity|]. discriminate.
Qed.

End StoredData.

Lemma example_world_holds_data : slots_hold_data example_world.
Proof.
  intros a s q H Hq. cbn [example_world mem peers] in H.
  apply lookup_singleton_Some in H as [<- <-]. discriminate Hq.
Defined.

Lemma example_world_sound : slots_sound example_world.
Proof.
  split; cbn [example_world mem peers heap].
  - intros a s q H Hq.
    apply lookup_singleton_Some in H as [<- <-]. discriminate Hq.
  - intros a b sa sb q Ha Hb Hqa Hqb.
    apply lookup_singleton_Some in Ha as [<- _].
    apply lookup_singleton_Some in Hb as [<- _]. reflexivity.
Defined.

Lemma SetData_keeps_slots_holding_data_witness :
  slots_sound example_world /\ slots_hold_data example_world /\
  exists w', SetData example_peer (Some [x68; x69]) example_world = Ok tt w' /\
             slots_hold_data w'.
Proof.
  split; [exact example_world_sound|]. split; [exact example_world_holds_data|].
  apply (SetData_keeps_slots_holding_data example_world 1%positive
           (mkENetPeer zero_ENetAddress None) (Some [x68; x69])
           example_world_sound example_world_holds_data).
  - reflexivity.
  - vm_compute. discriminate.
Defined.

Lemma example_world2_holds_data : slots_hold_data example_world2.
Proof.
  intros a s q H Hq. cbn [example_world2 mem peers heap] in *.
  apply lookup_insert_Some in H as [[<- <-]|[_ H]]; [discriminate Hq|].
  apply lookup_singleton_Some in H as [<- <-]. injection Hq as <-.
  exists [x2a]. split; [reflexivity|]. vm_compute. discriminate.
Defined.

Lemma GetData_defined_on_stored_data_witness :
  slots_hold_data example_world2 /\
  exists r,
    outcome_value (GetData (mkPeer (Some 2%positive)) example_world2) = Some r /\
    r = inr (Some [x2a]).
Proof.
  split; [exact example_world2_holds_data|].
  destruct (GetData_defined_on_stored_data example_world2
              (mkPeer (Some 2%positive)) example_world2_holds_data)
    as (r & Hr & _).
  - eexists. reflexivity.
  - exists r. split; [exact Hr|].
    vm_compute in Hr. injection Hr as <-. reflexivity.
Defined.
